(** * limix-inference: optimisation wrappers, exponential-family
      likelihoods and the Gaussian-process sampler

    A shallow embedding of

    - [limix_inference/lmm/fastlmm/fastlmm.py]  (class [FastLMM]),
    - [limix_inference/lmm/lmm.py]              (class [LMM]),
    - [limix_inference/lik/expfam.py]           (the [ExpFamLik] family),
    - [limix_inference/random/gp.py]            (class [GPSampler]).

    Numbers are idealised: a Python/numpy float is a real number of [R].
    An operation that has no real result (a division by zero, a logarithm
    outside its domain) is an error of the [result] type, so that no fact
    below rests on the value Rocq's total [/] or [ln] takes there. *)

From Stdlib Require Import Reals Lra Lia String List.
From stdpp Require Import gmap strings.

Open Scope R_scope.

(* ================================================================= *)
(** ** Python values, exceptions and arithmetic *)

Module Py.

(** The exceptions the embedded code can end in.  [ZeroDivisionError]
    stands for a division by zero (Python floats raise it, numpy floats
    give [inf]/[nan] with a warning) and [FloatingPointError] for a numpy
    logarithm outside its domain ([nan]/[-inf] with a warning): neither
    has a real number as its result. *)
Inductive exn : Set :=
| NotImplementedError
| ValueError
| TypeError
| KeyError
| ZeroDivisionError
| FloatingPointError.

Inductive result (A : Type) : Type :=
| Ok (a : A)
| Raise (e : exn).

Arguments Ok {A} a.
Arguments Raise {A} e.

#[global] Instance result_ret : MRet result := fun _ a => Ok a.

#[global] Instance result_bind : MBind result := fun _ _ k r =>
  match r with
  | Ok a => k a
  | Raise e => Raise e
  end.

(** A method of an object of state [S]: it returns or raises, and in both
    cases leaves a state behind (what was written before a [raise] stays
    written). *)
Definition M (S A : Type) : Type := S -> result A * S.

#[global] Instance M_ret {S} : MRet (M S) := fun _ a s => (Ok a, s).

#[global] Instance M_bind {S} : MBind (M S) := fun _ _ k m s =>
  match m s with
  | (Ok a, s') => k a s'
  | (Raise e, s') => (Raise e, s')
  end.

Definition raise {S A} (e : exn) : M S A := fun s => (Raise e, s).

Definition modify {S} (f : S -> S) : M S unit := fun s => (Ok tt, f s).

(** A Python value that is a number or [None]. *)
Inductive pyval : Type :=
| PyNone
| PyNum (r : R).

(** Arithmetic on a possibly-[None] operand raises [TypeError]. *)
Definition num (v : pyval) : result R :=
  match v with
  | PyNum r => Ok r
  | PyNone => Raise TypeError
  end.

(** [a / b] (true division, [from __future__ import division]). *)
Definition div (a b : R) : result R :=
  if Req_dec_T b 0 then Raise ZeroDivisionError else Ok (a / b).

(** [numpy.log]. *)
Definition log (x : R) : result R :=
  if Rlt_dec 0 x then Ok (ln x) else Raise FloatingPointError.

(** [numpy.log1p]: [log(1 + x)]. *)
Definition log1p (x : R) : result R :=
  if Rlt_dec (-1) x then Ok (ln (1 + x)) else Raise FloatingPointError.

(** [numpy.clip(a, a_min, a_max)] is [minimum(a_max, maximum(a, a_min))]. *)
Definition clip (a a_min a_max : R) : R := Rmin a_max (Rmax a a_min).

(** How reading an attribute [obj.name] ends when the class defines
    [name]: a [@property] runs its getter, which gives a value (or
    raises, the [Raise] of [result]); a plain [def] gives a bound method
    without running its body, which only a call [obj.name()] runs. *)
Inductive attr (A : Type) : Type :=
| AttrValue (v : A)
| AttrBoundMethod (call : result A).

Arguments AttrValue {A} v.
Arguments AttrBoundMethod {A} call.

(** [numpy.ndarray.var()] of a one-dimensional array: the mean of the
    squared deviations from the mean ([ddof = 0]). *)
Definition sum (l : list R) : R := fold_right Rplus 0 l.

Definition mean (l : list R) : result R := div (sum l) (INR (length l)).

Definition var (l : list R) : result R :=
  mu ← mean l; mean (map (fun x => (x - mu) * (x - mu)) l).

End Py.

Import Py.

(* ================================================================= *)
(** ** optimix: a [Function] with one [Scalar] variable *)

Module Optimix.

(** [optimix.Scalar]: a value and whether the optimiser may move it. *)
Record Scalar : Type := { value : R; isfixed : bool }.

(** Both wrappers call [Function.__init__(self, logistic=Scalar(0.0))]:
    the variables of the function are the one scalar [logistic]. *)
Record Function : Type := { logistic : Scalar }.

Definition init : Function :=
  {| logistic := {| value := 0; isfixed := false |} |}.

(** [self.get('logistic')] *)
Definition get_logistic (f : Function) : R := value (logistic f).

(** [Function.fix('logistic')] and [Function.unfix('logistic')] *)
Definition set_fixed (b : bool) (f : Function) : Function :=
  {| logistic := {| value := value (logistic f); isfixed := b |} |}.

(** [Scalar(v)]: a new variable, free to move. *)
Definition Scalar_new (v : R) : Scalar := {| value := v; isfixed := false |}.

(** [Function.__init__(self, logistic=s)] *)
Definition Function_new (s : Scalar) : Function := {| logistic := s |}.

End Optimix.

(* ================================================================= *)
(** ** The Mixed-Model Core *)

Module Core.

(** Modelled from the spec: [core.py] ([LMMCore], [FastLMMCore]) is not
    among the sources.  The record holds what the wrappers read and write
    on the Core: the mixing parameter [delta], the [scale], the fitted
    mean [m], whether the scale is held fixed, and the cached-validity
    flag [valid_update] ([true] is the spec's Fresh, [false] its Stale). *)
Record state : Type := {
  delta : R;
  scale : R;
  m : list R;
  scale_fixed : bool;
  valid_update : bool
}.

(** Plain attribute assignment [core.valid_update = b]. *)
Definition set_valid_update (b : bool) (c : state) : state :=
  {| delta := delta c; scale := scale c; m := m c;
     scale_fixed := scale_fixed c; valid_update := b |}.

(** Modelled from the spec: assigning [core.delta = v] stores [v], and
    "any mutation of delta [...] transitions to Stale". *)
Definition set_delta (v : R) (c : state) : state :=
  {| delta := v; scale := scale c; m := m c;
     scale_fixed := scale_fixed c; valid_update := false |}.

(** Modelled from the spec: "[fix_scale()]/[unfix_scale()] toggle whether
    scale is estimated analytically or held at its last-set value". *)
Definition set_scale_fixed (b : bool) (c : state) : state :=
  {| delta := delta c; scale := scale c; m := m c;
     scale_fixed := b; valid_update := valid_update c |}.

Definition fix_scale : state -> state := set_scale_fixed true.

Definition unfix_scale : state -> state := set_scale_fixed false.

(** The numerical part of the Core, which no claim below looks into:
    [lml()] on a Core state gives a number (or raises) and a Core state. *)
Class Numerics : Type := { lml : state -> result R * state }.

(** The other methods of the Core the wrappers call, taken as they come:
    [update()] recomputes the cached terms, [copy()] gives a Core of its
    own to a copy of the wrapper. *)
Class Methods : Type := { update : state -> state; copy : state -> state }.

End Core.

(* ================================================================= *)
(** ** [FastLMM] (fastlmm.py) *)

Module FastLMM.

(** [self._flmmc] is the Core the wrapper owns; the [Function] part holds
    the variable [logistic].  ([self._options] is stored and never
    read.) *)
Record state : Type := {
  func : Optimix.Function;
  _flmmc : Core.state
}.

Definition on_func (f : Optimix.Function -> Optimix.Function) (w : state) : state :=
  {| func := f (func w); _flmmc := _flmmc w |}.

Definition on_flmmc (f : Core.state -> Core.state) (w : state) : state :=
  {| func := func w; _flmmc := f (_flmmc w) |}.

(** [FastLMM.fix] *)
Definition fix_ (var_name : string) : M state unit :=
  (if String.eqb var_name "delta" then
     modify (on_func (Optimix.set_fixed true))
   else if String.eqb var_name "scale" then
     modify (on_flmmc Core.fix_scale)
   else
     raise ValueError);;
  modify (on_flmmc (Core.set_valid_update false)).

(** [FastLMM.unfix] *)
Definition unfix (var_name : string) : M state unit :=
  (if String.eqb var_name "delta" then
     modify (on_func (Optimix.set_fixed false))
   else if String.eqb var_name "scale" then
     modify (on_flmmc Core.unfix_scale)
   else
     raise ValueError);;
  modify (on_flmmc (Core.set_valid_update false)).

(** [FastLMM._delta] *)
Definition _delta (w : state) : result R :=
  let v := clip (Optimix.get_logistic (func w)) (-20) 20 in
  x ← div 1 (1 + exp (- v));
  Ok (clip x 1e-5 (1 - 1e-5)).

(** [FastLMM.fixed_effects_variance] *)
Definition fixed_effects_variance (w : state) : result R :=
  var (Core.m (_flmmc w)).

(** [FastLMM.genetic_variance] *)
Definition genetic_variance (w : state) : result R :=
  Ok (Core.scale (_flmmc w) * (1 - Core.delta (_flmmc w))).

(** [FastLMM.environmental_variance] *)
Definition environmental_variance (w : state) : result R :=
  Ok (Core.scale (_flmmc w) * Core.delta (_flmmc w)).

(** [FastLMM.heritability] *)
Definition heritability (w : state) : result R :=
  f ← fixed_effects_variance w;
  g ← genetic_variance w;
  e ← environmental_variance w;
  let t := f + g + e in
  g' ← genetic_variance w;
  div g' t.

(** [self._flmmc.delta = self._delta()], shared by [value] and [lml]. *)
Definition assign_delta : M state unit := fun w =>
  match _delta w with
  | Ok d => (Ok tt, on_flmmc (Core.set_delta d) w)
  | Raise e => (Raise e, w)
  end.

(** [self._flmmc.lml()] *)
Definition flmmc_lml `{Core.Numerics} : M state R := fun w =>
  let '(r, c) := Core.lml (_flmmc w) in
  (r, on_flmmc (fun _ => c) w).

(** [FastLMM.value] *)
Definition value `{Core.Numerics} : M state R :=
  assign_delta;; flmmc_lml.

(** [FastLMM.lml] *)
Definition lml `{Core.Numerics} : M state R :=
  assign_delta;; flmmc_lml.

(** [optimix.maximize_scalar(self, progress=progress)], the external
    optimiser: it may evaluate [value()] and move the variables of the
    object any number of times, and it may fail. *)
Class Optimiser : Type := { maximize_scalar : M state unit }.

(** [FastLMM.learn] *)
Definition learn `{Optimiser} `{Core.Methods} : M state unit :=
  maximize_scalar;;
  modify (on_flmmc Core.update);;
  assign_delta.

(** [FastLMM.copy]: the new object gets a new [Scalar] holding the value
    of [logistic] and a copy of the Core. *)
Definition copy `{Core.Methods} (w : state) : state :=
  {| func := Optimix.Function_new (Optimix.Scalar_new (Optimix.get_logistic (func w)));
     _flmmc := Core.copy (_flmmc w) |}.

End FastLMM.

(* ================================================================= *)
(** ** [LMM] (lmm.py) *)

Module LMM.

(** [class LMM(LMMCore, Function)]: the object is its own Core.  [core]
    is the part [LMMCore.__init__] sets up, [func] the [Function] part,
    and [_fix], [_scale] are the wrapper's own attributes. *)
Record state : Type := {
  func : Optimix.Function;
  core : Core.state;
  _fix : gmap string bool;
  _scale : R
}.

Definition on_func (f : Optimix.Function -> Optimix.Function) (w : state) : state :=
  {| func := f (func w); core := core w; _fix := _fix w; _scale := _scale w |}.

Definition on_core (f : Core.state -> Core.state) (w : state) : state :=
  {| func := func w; core := f (core w); _fix := _fix w; _scale := _scale w |}.

Definition on_fix (f : gmap string bool -> gmap string bool) (w : state) : state :=
  {| func := func w; core := core w; _fix := f (_fix w); _scale := _scale w |}.

(** The attributes [LMM.__init__] sets on top of a Core [c]:
    [self._fix = dict(beta=False, scale=False)] and
    [self._scale = LMMCore.scale.fget(self)]. *)
Definition init (c : Core.state) : state :=
  {| func := Optimix.init;
     core := c;
     _fix := <["beta" := false]> (<["scale" := false]> ∅);
     _scale := Core.scale c |}.

(** [LMM.fix] *)
Definition fix_ (var_name : string) : M state unit :=
  if String.eqb var_name "delta" then
    modify (on_func (Optimix.set_fixed true))
  else
    modify (on_fix <[var_name := true]>).

(** [LMM.unfix] *)
Definition unfix (var_name : string) : M state unit :=
  if String.eqb var_name "delta" then
    modify (on_func (Optimix.set_fixed false))
  else
    modify (on_fix <[var_name := false]>).

(** [LMM.scale] (the getter): [self._fix['scale']] is a dict lookup. *)
Definition scale (w : state) : result R :=
  match _fix w !! "scale" with
  | None => Raise KeyError
  | Some true => Ok (_scale w)
  | Some false => Ok (Core.scale (core w))
  end.

(** [LMM._get_delta] *)
Definition _get_delta (w : state) : result R :=
  let v := clip (Optimix.get_logistic (func w)) (-20) 20 in
  x ← div 1 (1 + exp (- v));
  Ok (clip x 1e-5 (1 - 1e-5)).

(** [LMM.fixed_effects_variance] *)
Definition fixed_effects_variance (w : state) : result R :=
  var (Core.m (core w)).

(** [LMM.genetic_variance] *)
Definition genetic_variance (w : state) : result R :=
  s ← scale w; Ok (s * (1 - Core.delta (core w))).

(** [LMM.environmental_variance] *)
Definition environmental_variance (w : state) : result R :=
  s ← scale w; Ok (s * Core.delta (core w)).

(** [LMM.heritability] *)
Definition heritability (w : state) : result R :=
  f ← fixed_effects_variance w;
  g ← genetic_variance w;
  e ← environmental_variance w;
  let t := f + g + e in
  g' ← genetic_variance w;
  div g' t.

(** [self.delta = self._get_delta()] *)
Definition assign_delta : M state unit := fun w =>
  match _get_delta w with
  | Ok d => (Ok tt, on_core (Core.set_delta d) w)
  | Raise e => (Raise e, w)
  end.

(** [LMMCore.lml], a method of the base class run on the [LMM] object
    itself: it may read whatever the object holds (the wrapper overrides
    the [scale] property the base class reads). *)
Class CoreMethods : Type := { LMMCore_lml : M state R }.

(** [LMM.lml] *)
Definition lml `{CoreMethods} : M state R :=
  assign_delta;; LMMCore_lml.

(** [LMM.value] *)
Definition value `{CoreMethods} : M state R :=
  assign_delta;; lml.

(** the [scale] setter: [self._scale = v] *)
Definition set_scale (v : R) : M state unit :=
  modify (fun w =>
    {| func := func w; core := core w; _fix := _fix w; _scale := v |}).

(** [optimix.maximize_scalar(self, progress=progress)] and
    [self.update()] (a method of the base class run on the object). *)
Class Optimiser : Type := {
  maximize_scalar : M state unit;
  LMMCore_update : M state unit
}.

(** [LMM.learn] *)
Definition learn `{Optimiser} : M state unit :=
  maximize_scalar;;
  LMMCore_update;;
  assign_delta.

(** A caller of one [LMM] object: the calls it may make on the wrapper's
    own attributes, and a sequence of them run in order. *)
Inductive call : Type :=
| CallFix (var_name : string)
| CallUnfix (var_name : string)
| CallSetScale (v : R)
| CallAssignDelta.

Definition do_call (c : call) : M state unit :=
  match c with
  | CallFix n => fix_ n
  | CallUnfix n => unfix n
  | CallSetScale v => set_scale v
  | CallAssignDelta => assign_delta
  end.

Fixpoint do_calls (cs : list call) : M state unit :=
  match cs with
  | [] => mret tt
  | c :: rest => do_call c;; do_calls rest
  end.

End LMM.

(* ================================================================= *)
(** ** Exponential-family likelihoods (expfam.py) *)

Module ExpFam.

(** The link function, an external collaborator: [inv(x)] maps a latent
    value to a mean, [latent_variance] is a number. *)
Record Link : Type := { inv : R -> R; link_latent_variance : R }.

(** What expfam.py imports from scipy: [scipy.special.gammaln] and the
    [rvs] draws of [scipy.stats], which consume the random source they
    are given. *)
Class Scipy : Type := {
  RandomState : Type;
  gammaln : R -> R;
  bernoulli_rvs : R -> option RandomState -> R * option RandomState;
  binom_rvs : R -> R -> option RandomState -> R * option RandomState;
  poisson_rvs : R -> option RandomState -> R * option RandomState
}.

(** [numpy_sugar.special.logbinom(n, k)], the logarithm of the binomial
    coefficient through [gammaln]. *)
Definition logbinom `{Scipy} (n k : R) : R :=
  gammaln (n + 1) - gammaln (k + 1) - gammaln (n - k + 1).

(** The interface of [class ExpFamLik]: what each variant overrides. *)
Class ExpFamLik `{Scipy} (T : Type) : Type := {
  y : T -> result pyval;
  ytuple : T -> result (list pyval);
  mean : T -> R -> result R;
  latent_variance : T -> result (attr R);
  theta : T -> R -> result R;
  phi : T -> result R;
  a : T -> result R;
  b : T -> R -> result R;
  c : T -> result R;
  sample : T -> R -> option RandomState -> result R * option RandomState
}.

(** [ExpFamLik.logpdf], written once for every variant. *)
Definition logpdf `{ExpFamLik T} (l : T) (x : R) : result R :=
  th ← theta l x;
  yv ← y l;
  yn ← num yv;
  bv ← b l th;
  av ← a l;
  q ← div (yn * th - bv) av;
  cv ← c l;
  Ok (q + cv).

(** [ExpFamLik.pdf] *)
Definition pdf `{ExpFamLik T} (l : T) (x : R) : result R :=
  lp ← logpdf l x; Ok (exp lp).

(** The base class itself: every member raises [NotImplementedError]. *)
#[global] Instance Base `{Scipy} : ExpFamLik unit := {|
  y := fun _ => Raise NotImplementedError;
  ytuple := fun _ => Raise NotImplementedError;
  mean := fun _ _ => Raise NotImplementedError;
  latent_variance := fun _ => Raise NotImplementedError;
  theta := fun _ _ => Raise NotImplementedError;
  phi := fun _ => Raise NotImplementedError;
  a := fun _ => Raise NotImplementedError;
  b := fun _ _ => Raise NotImplementedError;
  c := fun _ => Raise NotImplementedError;
  sample := fun _ _ rs => (Raise NotImplementedError, rs)
|}.

End ExpFam.

(** *** [DeltaLik] *)

Module DeltaLik.

Record state : Type := { _link : option ExpFam.Link; _outcome : pyval }.

(** [DeltaLik(link=None)] *)
Definition init (link : option ExpFam.Link) : state :=
  {| _link := link; _outcome := PyNone |}.

(** the [outcome] setter *)
Definition set_outcome (v : pyval) (l : state) : state :=
  {| _link := _link l; _outcome := v |}.

Definition y (l : state) : result pyval := Ok (_outcome l).

Definition ytuple (l : state) : result (list pyval) := Ok [_outcome l].

Definition mean (l : state) (x : R) : result R := Ok x.

Definition theta (l : state) (x : R) : result R := Ok 0.

Definition phi (l : state) : result R := Ok 1.

Definition a (l : state) : result R := Ok 1.

Definition b (l : state) (theta : R) : result R := Ok theta.

Definition c (l : state) : result R := Ok 0.

Definition sample `{ExpFam.Scipy} (l : state) (x : R)
    (random_state : option ExpFam.RandomState)
  : result R * option ExpFam.RandomState :=
  (mean l x, random_state).

(** [def latent_variance(self): raise NotImplementedError], a plain
    method (the class puts no [@property] on it). *)
Definition latent_variance (l : state) : result (attr R) :=
  Ok (AttrBoundMethod (Raise NotImplementedError)).

#[global] Instance lik `{ExpFam.Scipy} : ExpFam.ExpFamLik state := {|
  ExpFam.y := y; ExpFam.ytuple := ytuple; ExpFam.mean := mean;
  ExpFam.latent_variance := latent_variance; ExpFam.theta := theta;
  ExpFam.phi := phi; ExpFam.a := a; ExpFam.b := b; ExpFam.c := c;
  ExpFam.sample := sample
|}.

End DeltaLik.

(** *** [BernoulliLik] *)

Module BernoulliLik.

Record state : Type := { _link : ExpFam.Link; _outcome : pyval }.

Definition init (link : ExpFam.Link) : state :=
  {| _link := link; _outcome := PyNone |}.

Definition set_outcome (v : pyval) (l : state) : state :=
  {| _link := _link l; _outcome := v |}.

Definition y (l : state) : result pyval := Ok (_outcome l).

Definition ytuple (l : state) : result (list pyval) := Ok [_outcome l].

Definition mean (l : state) (x : R) : result R := Ok (ExpFam.inv (_link l) x).

(** [@property latent_variance]: [return self._link.latent_variance] *)
Definition latent_variance (l : state) : result (attr R) :=
  Ok (AttrValue (ExpFam.link_latent_variance (_link l))).

Definition theta (l : state) (x : R) : result R :=
  m ← mean l x;
  q ← div m (1 - m);
  log q.

Definition phi (l : state) : result R := Ok 1.

Definition a (l : state) : result R := Ok 1.

Definition b (l : state) (theta : R) : result R :=
  t ← log1p (exp (- theta)); Ok (theta + t).

Definition c (l : state) : result R := Ok 0.

Definition sample `{ExpFam.Scipy} (l : state) (x : R)
    (random_state : option ExpFam.RandomState)
  : result R * option ExpFam.RandomState :=
  match mean l x with
  | Ok p => let '(v, rs) := ExpFam.bernoulli_rvs p random_state in (Ok v, rs)
  | Raise e => (Raise e, random_state)
  end.

#[global] Instance lik `{ExpFam.Scipy} : ExpFam.ExpFamLik state := {|
  ExpFam.y := y; ExpFam.ytuple := ytuple; ExpFam.mean := mean;
  ExpFam.latent_variance := latent_variance; ExpFam.theta := theta;
  ExpFam.phi := phi; ExpFam.a := a; ExpFam.b := b; ExpFam.c := c;
  ExpFam.sample := sample
|}.

End BernoulliLik.

(** *** [BinomialLik] *)

Module BinomialLik.

Record state : Type := {
  _link : ExpFam.Link;
  _nsuccesses : pyval;
  _ntrials : R
}.

(** [BinomialLik(ntrials, link)] *)
Definition init (ntrials : R) (link : ExpFam.Link) : state :=
  {| _link := link; _nsuccesses := PyNone; _ntrials := ntrials |}.

(** the [nsuccesses] setter: the value is stored as it comes. *)
Definition set_nsuccesses (v : pyval) (l : state) : state :=
  {| _link := _link l; _nsuccesses := v; _ntrials := _ntrials l |}.

Definition y (l : state) : result pyval :=
  k ← num (_nsuccesses l);
  q ← div k (_ntrials l);
  Ok (PyNum q).

Definition ytuple (l : state) : result (list pyval) :=
  Ok [_nsuccesses l; PyNum (_ntrials l)].

Definition mean (l : state) (x : R) : result R := Ok (ExpFam.inv (_link l) x).

(** [@property latent_variance]: [raise NotImplementedError] *)
Definition latent_variance (l : state) : result (attr R) :=
  Raise NotImplementedError.

Definition theta (l : state) (x : R) : result R :=
  m ← mean l x;
  q ← div m (1 - m);
  log q.

Definition phi (l : state) : result R := Ok (_ntrials l).

Definition a (l : state) : result R :=
  p ← phi l; div 1 p.

Definition b (l : state) (theta : R) : result R :=
  t ← log1p (exp (- theta)); Ok (theta + t).

Definition c `{ExpFam.Scipy} (l : state) : result R :=
  n ← phi l;
  yv ← y l;
  yn ← num yv;
  p ← phi l;
  Ok (ExpFam.logbinom n (yn * p)).

Definition sample `{ExpFam.Scipy} (l : state) (x : R)
    (random_state : option ExpFam.RandomState)
  : result R * option ExpFam.RandomState :=
  match mean l x with
  | Ok p =>
      let '(v, rs) := ExpFam.binom_rvs (_ntrials l) p random_state in (Ok v, rs)
  | Raise e => (Raise e, random_state)
  end.

#[global] Instance lik `{ExpFam.Scipy} : ExpFam.ExpFamLik state := {|
  ExpFam.y := y; ExpFam.ytuple := ytuple; ExpFam.mean := mean;
  ExpFam.latent_variance := latent_variance; ExpFam.theta := theta;
  ExpFam.phi := phi; ExpFam.a := a; ExpFam.b := b; ExpFam.c := c;
  ExpFam.sample := sample
|}.

End BinomialLik.

(** *** [PoissonLik] *)

Module PoissonLik.

Record state : Type := { _link : ExpFam.Link; _noccurrences : pyval }.

Definition init (link : ExpFam.Link) : state :=
  {| _link := link; _noccurrences := PyNone |}.

Definition set_noccurrences (v : pyval) (l : state) : state :=
  {| _link := _link l; _noccurrences := v |}.

Definition y (l : state) : result pyval := Ok (_noccurrences l).

Definition ytuple (l : state) : result (list pyval) := Ok [_noccurrences l].

Definition mean (l : state) (x : R) : result R := Ok (ExpFam.inv (_link l) x).

(** [@property latent_variance]: [raise NotImplementedError] *)
Definition latent_variance (l : state) : result (attr R) :=
  Raise NotImplementedError.

Definition theta (l : state) (x : R) : result R :=
  m ← mean l x; log m.

Definition phi (l : state) : result R := Ok 1.

Definition a (l : state) : result R := phi l.

Definition b (l : state) (theta : R) : result R := Ok (exp theta).

Definition c `{ExpFam.Scipy} (l : state) : result R :=
  k ← num (_noccurrences l); Ok (ExpFam.gammaln (k + 1)).

Definition sample `{ExpFam.Scipy} (l : state) (x : R)
    (random_state : option ExpFam.RandomState)
  : result R * option ExpFam.RandomState :=
  match mean l x with
  | Ok lam => let '(v, rs) := ExpFam.poisson_rvs lam random_state in (Ok v, rs)
  | Raise e => (Raise e, random_state)
  end.

#[global] Instance lik `{ExpFam.Scipy} : ExpFam.ExpFamLik state := {|
  ExpFam.y := y; ExpFam.ytuple := ytuple; ExpFam.mean := mean;
  ExpFam.latent_variance := latent_variance; ExpFam.theta := theta;
  ExpFam.phi := phi; ExpFam.a := a; ExpFam.b := b; ExpFam.c := c;
  ExpFam.sample := sample
|}.

End PoissonLik.

(* ================================================================= *)
(** ** The Gaussian-process sampler (gp.py) *)

Module GP.

(** numpy arrays are objects of a store: a name denotes an address, two
    names may denote the same array, and an in-place operation changes
    what every name of that array sees. *)
Inductive ndarray : Type :=
| Vec (v : list R)
| Mat (rows : list (list R)).

Definition addr : Type := positive.

Abbreviation store := (gmap addr ndarray).

(** The collaborators of the sampler: the random source, the constant
    [numpy_sugar.epsilon.small] and [numpy_sugar.random.multivariate_normal],
    which reads its two arrays and consumes the random source. *)
Class Numpy : Type := {
  RandomState : Type;
  new_RandomState : RandomState;
  epsilon_small : R;
  multivariate_normal :
    ndarray -> ndarray -> RandomState -> result ndarray * RandomState
}.

(** A mean or covariance object ([optimix.Function]).  The array it holds
    lives at [data], and [feed(purpose).value()] hands out that very
    array, not a copy of it. *)
Record Function : Type := { data : addr }.

Definition feed_value (f : Function) : M store addr := fun h => (Ok (data f), h).

Record state : Type := { _mean : Function; _cov : Function }.

(** reading the array behind a name *)
Definition deref (p : addr) : M store ndarray := fun h =>
  match h !! p with
  | Some arr => (Ok arr, h)
  | None => (Raise ValueError, h)
  end.

(** [arr.copy()]: a new array with the same contents at an address no
    array of the store has. *)
Definition alloc (arr : ndarray) : M store addr := fun h =>
  let q := fresh (dom h) in (Ok q, <[q := arr]> h).

Definition copy (p : addr) : M store addr :=
  arr ← deref p; alloc arr.

(** adding [D] to the diagonal of a matrix given by its rows *)
Fixpoint add_diag_from (i : nat) (D : R) (rows : list (list R)) : list (list R) :=
  match rows with
  | [] => []
  | r :: rest => alter (fun x => x + D) i r :: add_diag_from (S i) D rest
  end.

Definition add_diag (D : R) (arr : ndarray) : result ndarray :=
  match arr with
  | Mat rows => Ok (Mat (add_diag_from 0 D rows))
  | Vec _ => Raise ValueError
  end.

(** [numpy_sugar.linalg.sum2diag(A, D, out=out)]: [A] is copied into the
    array [out] names and [D] is added to the diagonal of that array, in
    place. *)
Definition sum2diag (A : addr) (D : R) (out : addr) : M store unit :=
  arr ← deref A;
  _ ← deref out;
  match add_diag D arr with
  | Ok arr' => modify <[out := arr']>
  | Raise e => raise e
  end.

(** [GPSampler.sample] *)
Definition sample `{Numpy} (g : state) (random_state : option RandomState)
  : M store (ndarray * RandomState) :=
  let random_state :=
    match random_state with
    | None => new_RandomState
    | Some r => r
    end in
  m ← feed_value (_mean g);
  K0 ← feed_value (_cov g);
  K ← copy K0;
  sum2diag K epsilon_small K;;
  vm ← deref m;
  vK ← deref K;
  let '(r, rs) := multivariate_normal vm vK random_state in
  match r with
  | Ok v => mret (v, rs)
  | Raise e => raise e
  end.

(** A caller that samples once per random source of a list, on the same
    sampler, and the store it leaves. *)
Fixpoint sample_many `{Numpy} (g : state) (sources : list (option RandomState))
    (h : store) : store :=
  match sources with
  | [] => h
  | rs :: rest => sample_many g rest (snd (sample g rs h))
  end.

(** The entry [(i, j)] of a matrix given by its rows. *)
Definition entry (rows : list (list R)) (i j : nat) : option R :=
  rows !! i ≫= fun r => r !! j.

End GP.

(* ================================================================= *)
(** ** Reference formulas the claims are stated against *)

(** The delta transform as the specification words it: the raw parameter
    clipped to [-20, 20], the logistic function, the result clipped to
    [1e-5, 1 - 1e-5]. *)
Definition spec_delta (v : R) : R :=
  clip (1 / (1 + exp (- clip v (-20) 20))) 1e-5 (1 - 1e-5).

(** The exponential-family log-density [(y theta - b) / a + c]. *)
Definition spec_logpdf (y theta b a c : R) : R := (y * theta - b) / a + c.

(* ================================================================= *)
(** ** Concrete states used as examples *)

(** A Core right after [update()]: its cached terms are Fresh. *)
Definition core_fresh : Core.state :=
  {| Core.delta := 1 / 2; Core.scale := 1; Core.m := [1; 3];
     Core.scale_fixed := false; Core.valid_update := true |}.

(** The wrappers built on it. *)
Definition fastlmm_fresh : FastLMM.state :=
  {| FastLMM.func := Optimix.init; FastLMM._flmmc := core_fresh |}.

Definition lmm_fresh : LMM.state := LMM.init core_fresh.

(** A stand-in for scipy on which the hypotheses made on [gammaln] can be
    checked: its [gammaln] is [log((n-1)!)] at every [x] whose integer
    ceiling is [n], and its draws return the mean and leave the random
    source alone. *)
Definition gammaln_model (x : R) : R :=
  ln (INR (fact (Z.to_nat (up x - 2)))).

Definition scipy_model : ExpFam.Scipy :=
  {| ExpFam.RandomState := nat;
     ExpFam.gammaln := gammaln_model;
     ExpFam.bernoulli_rvs := fun p rs => (p, rs);
     ExpFam.binom_rvs := fun n p rs => (n * p, rs);
     ExpFam.poisson_rvs := fun lam rs => (lam, rs) |}.

(** The identity link. *)
Definition identity_link : ExpFam.Link :=
  {| ExpFam.inv := fun x => x; ExpFam.link_latent_variance := 1 |}.




(** A stand-in for the sampler's collaborators: the draw returns the mean
    and counts the calls in the random source. *)
Definition numpy_model : GP.Numpy :=
  {| GP.RandomState := nat;
     GP.new_RandomState := 0%nat;
     GP.epsilon_small := 1e-8;
     GP.multivariate_normal := fun vm _ rs => (Ok vm, S rs) |}.

(** A store with a mean vector at address 1 and a 2 x 2 covariance matrix
    at address 2, and the sampler over them. *)
Definition store_example : GP.store :=
  <[1%positive := GP.Vec [0; 0]]>
    (<[2%positive := GP.Mat [[1; 0]; [0; 1]]]> ∅).

Definition sampler_example : GP.state :=
  {| GP._mean := {| GP.data := 1%positive |};
     GP._cov := {| GP.data := 2%positive |} |}.

(** Wrappers whose variable [logistic] holds [v]. *)
Definition fastlmm_at (v : R) : FastLMM.state :=
  {| FastLMM.func := Optimix.Function_new (Optimix.Scalar_new v);
     FastLMM._flmmc := core_fresh |}.

Definition lmm_at (v : R) : LMM.state :=
  LMM.on_func (fun _ => Optimix.Function_new (Optimix.Scalar_new v)) lmm_fresh.

(** Stand-ins for the Core's other methods and for the optimiser: an
    [update()] that marks the cache Fresh, a [copy()] that returns the
    same values, an optimiser that moves [logistic] to 3. *)
Definition core_methods_model : Core.Methods :=
  {| Core.update := Core.set_valid_update true; Core.copy := fun c => c |}.

Definition fastlmm_optimiser_model : FastLMM.Optimiser :=
  {| FastLMM.maximize_scalar :=
       modify (FastLMM.on_func
                 (fun _ => Optimix.Function_new (Optimix.Scalar_new 3))) |}.

Definition lmm_optimiser_model : LMM.Optimiser :=
  {| LMM.maximize_scalar :=
       modify (LMM.on_func
                 (fun _ => Optimix.Function_new (Optimix.Scalar_new 3)));
     LMM.LMMCore_update := modify (LMM.on_core (Core.set_valid_update true)) |}.

(** Wrappers over a Core with the fitted mean [m], scale [s] and delta
    [d]. *)
Definition core_with (m : list R) (s d : R) : Core.state :=
  {| Core.delta := d; Core.scale := s; Core.m := m;
     Core.scale_fixed := false; Core.valid_update := true |}.

Definition fastlmm_with (m : list R) (s d : R) : FastLMM.state :=
  {| FastLMM.func := Optimix.init; FastLMM._flmmc := core_with m s d |}.

Definition lmm_with (m : list R) (s d : R) : LMM.state :=
  LMM.init (core_with m s d).

(* ================================================================= *)
(** ** Arithmetic lemmas *)

Lemma clip_bounds (a lo hi : R) : lo <= hi -> lo <= clip a lo hi <= hi.
Proof.
  intros Hle. unfold clip, Rmin, Rmax.
  destruct (Rle_dec a lo); destruct (Rle_dec hi _); lra.
Qed.

Lemma div_ok (a b : R) : b <> 0 -> div a b = Ok (a / b).
Proof.
  intros Hb. unfold div. destruct (Req_dec_T b 0); [contradiction | reflexivity].
Qed.

Lemma div_zero (a : R) : div a 0 = Raise ZeroDivisionError.
Proof.
  unfold div. destruct (Req_dec_T 0 0); [reflexivity | contradiction].
Qed.

Lemma log_ok (x : R) : 0 < x -> log x = Ok (ln x).
Proof.
  intros Hx. unfold log. destruct (Rlt_dec 0 x); [reflexivity | contradiction].
Qed.

Lemma log1p_ok (x : R) : -1 < x -> log1p x = Ok (ln (1 + x)).
Proof.
  intros Hx. unfold log1p. destruct (Rlt_dec (-1) x); [reflexivity | contradiction].
Qed.

Lemma logistic_den_pos (v : R) : 0 < 1 + exp (- v).
Proof. pose proof (exp_pos (- v)). lra. Qed.

(* ================================================================= *)
(** ** The delta transform and [value()] *)

Lemma FastLMM_delta_spec (w : FastLMM.state) :
  FastLMM._delta w = Ok (spec_delta (Optimix.get_logistic (FastLMM.func w))).
Proof.
  unfold FastLMM._delta, spec_delta.
  rewrite div_ok by (pose proof (logistic_den_pos
    (clip (Optimix.get_logistic (FastLMM.func w)) (-20) 20)); lra).
  reflexivity.
Qed.

Lemma LMM_get_delta_spec (w : LMM.state) :
  LMM._get_delta w = Ok (spec_delta (Optimix.get_logistic (LMM.func w))).
Proof.
  unfold LMM._get_delta, spec_delta.
  rewrite div_ok by (pose proof (logistic_den_pos
    (clip (Optimix.get_logistic (LMM.func w)) (-20) 20)); lra).
  reflexivity.
Qed.

Lemma spec_delta_range (v : R) : 1e-5 <= spec_delta v <= 1 - 1e-5.
Proof. unfold spec_delta. apply clip_bounds. lra. Qed.

(** C1.  For every value [v] of the free parameter [logistic], both
    [FastLMM._delta] and [LMM._get_delta] return (they never raise)
    [clip(1/(1+exp(-clip(v,-20,20))), 1e-5, 1-1e-5)], a number of
    [[1e-5, 1-1e-5]]; and [value()] stores exactly that number as the
    Core's [delta] and returns what the Core's [lml()] returns on the
    Core so updated. *)
Theorem C1_delta_transform_and_value
    `{Core.Numerics} `{LMM.CoreMethods}
    (fw : FastLMM.state) (lw : LMM.state) :
  let dF := spec_delta (Optimix.get_logistic (FastLMM.func fw)) in
  let dL := spec_delta (Optimix.get_logistic (LMM.func lw)) in
  let cF := Core.set_delta dF (FastLMM._flmmc fw) in
  let lw' := LMM.on_core (Core.set_delta dL) lw in
  FastLMM._delta fw = Ok dF /\
  LMM._get_delta lw = Ok dL /\
  1e-5 <= dF <= 1 - 1e-5 /\
  1e-5 <= dL <= 1 - 1e-5 /\
  Core.delta cF = dF /\
  FastLMM.value fw =
    (fst (Core.lml cF), FastLMM.on_flmmc (fun _ => snd (Core.lml cF)) fw) /\
  Core.delta (LMM.core lw') = dL /\
  LMM.value lw = LMM.LMMCore_lml lw'.
Proof.
  intros dF dL cF lw'.
  repeat split; try apply spec_delta_range; try apply FastLMM_delta_spec;
    try apply LMM_get_delta_spec.
  - unfold FastLMM.value, FastLMM.assign_delta, FastLMM.flmmc_lml.
    unfold mbind, M_bind. rewrite FastLMM_delta_spec. fold dF. simpl.
    fold cF. destruct (Core.lml cF) as [r c]. reflexivity.
  - unfold LMM.value, LMM.lml, LMM.assign_delta.
    unfold mbind, M_bind. rewrite LMM_get_delta_spec. fold dL. fold lw'.
    assert (Hd : LMM._get_delta lw' = Ok dL).
    { rewrite LMM_get_delta_spec. reflexivity. }
    rewrite Hd.
    assert (Hw : LMM.on_core (Core.set_delta dL) lw' = lw').
    { unfold lw', LMM.on_core, Core.set_delta. simpl. reflexivity. }
    rewrite Hw. reflexivity.
Qed.

(* ================================================================= *)
(** ** [fix] and [unfix] *)

Lemma eqb_delta_scale (name : string) :
  name = "delta" \/ name = "scale" ->
  String.eqb name "delta" = true \/
  (String.eqb name "delta" = false /\ String.eqb name "scale" = true).
Proof. intros [-> | ->]; [left | right]; split; reflexivity. Qed.

Lemma eqb_other (name : string) :
  name <> "delta" -> name <> "scale" ->
  String.eqb name "delta" = false /\ String.eqb name "scale" = false.
Proof. intros Hd Hs. split; apply String.eqb_neq; assumption. Qed.

(** [FastLMM.fix] and [FastLMM.unfix] end with
    [self._flmmc.valid_update = False] on every path that does not
    raise. *)
Lemma FastLMM_fix_invalidates (b : bool) (name : string) (w : FastLMM.state) :
  name = "delta" \/ name = "scale" ->
  let m := if b then FastLMM.fix_ name else FastLMM.unfix name in
  fst (m w) = Ok tt /\
  Core.valid_update (FastLMM._flmmc (snd (m w))) = false.
Proof.
  intros Hname m. subst m.
  destruct (eqb_delta_scale name Hname) as [Hd | [Hd Hs]];
    destruct b; unfold FastLMM.fix_, FastLMM.unfix, mbind, M_bind, modify;
    rewrite Hd; try rewrite Hs; simpl; split; reflexivity.
Qed.

(** X22.  On [FastLMM], [fix(name)] and [unfix(name)] with [name] one of
    ['delta'], ['scale'] return normally and leave [valid_update] of the
    Core the wrapper owns [False], whatever the flag was before. *)
Theorem X22_FastLMM_fix_unfix_invalidate (name : string) (fw : FastLMM.state) :
  name = "delta" \/ name = "scale" ->
  (fst (FastLMM.fix_ name fw) = Ok tt /\
   Core.valid_update (FastLMM._flmmc (snd (FastLMM.fix_ name fw))) = false) /\
  (fst (FastLMM.unfix name fw) = Ok tt /\
   Core.valid_update (FastLMM._flmmc (snd (FastLMM.unfix name fw))) = false).
Proof.
  intros Hname. split.
  - apply (FastLMM_fix_invalidates true name fw Hname).
  - apply (FastLMM_fix_invalidates false name fw Hname).
Qed.

Lemma X22_FastLMM_fix_unfix_invalidate_witness :
  Core.valid_update (FastLMM._flmmc fastlmm_fresh) = true /\
  Core.valid_update
    (FastLMM._flmmc (snd (FastLMM.fix_ "scale" fastlmm_fresh))) = false /\
  Core.valid_update
    (FastLMM._flmmc (snd (FastLMM.unfix "delta" fastlmm_fresh))) = false.
Proof.
  assert (Hs : "scale" = "delta" \/ "scale" = "scale") by (right; reflexivity).
  assert (Hd : "delta" = "delta" \/ "delta" = "scale") by (left; reflexivity).
  repeat apply conj.
  - reflexivity.
  - apply (X22_FastLMM_fix_unfix_invalidate "scale" fastlmm_fresh Hs).
  - apply (X22_FastLMM_fix_unfix_invalidate "delta" fastlmm_fresh Hd).
Defined.

(** [LMM.fix] and [LMM.unfix] record any name other than ['delta'] in the
    table [_fix]. *)
Lemma LMM_fix_records (b : bool) (name : string) (w : LMM.state) :
  name <> "delta" ->
  (if b then LMM.fix_ name else LMM.unfix name) w =
  (Ok tt, LMM.on_fix <[name := b]> w).
Proof.
  intros Hd. apply String.eqb_neq in Hd.
  destruct b; unfold LMM.fix_, LMM.unfix; rewrite Hd; reflexivity.
Qed.

(** X23.  What [LMM.fix] and [LMM.unfix] do, exactly: with ['delta'] they
    set, respectively clear, the fixed mark of the variable [logistic]
    and change nothing else; with any other name they store [True],
    respectively [False], under that name in the table [_fix] and change
    nothing else.  They never raise, and the part of the object the Core
    class set up, with its [valid_update], and [_scale] are never
    written. *)
Theorem X23_LMM_fix_unfix_effect (name : string) (lw : LMM.state) :
  LMM.fix_ "delta" lw = (Ok tt, LMM.on_func (Optimix.set_fixed true) lw) /\
  LMM.unfix "delta" lw = (Ok tt, LMM.on_func (Optimix.set_fixed false) lw) /\
  (name <> "delta" ->
     LMM.fix_ name lw = (Ok tt, LMM.on_fix <[name := true]> lw) /\
     LMM.unfix name lw = (Ok tt, LMM.on_fix <[name := false]> lw)) /\
  LMM.core (snd (LMM.fix_ name lw)) = LMM.core lw /\
  LMM.core (snd (LMM.unfix name lw)) = LMM.core lw /\
  LMM._scale (snd (LMM.fix_ name lw)) = LMM._scale lw /\
  LMM._scale (snd (LMM.unfix name lw)) = LMM._scale lw /\
  Optimix.get_logistic (LMM.func (snd (LMM.fix_ name lw)))
    = Optimix.get_logistic (LMM.func lw) /\
  Optimix.get_logistic (LMM.func (snd (LMM.unfix name lw)))
    = Optimix.get_logistic (LMM.func lw).
Proof.
  split; [reflexivity |]. split; [reflexivity |]. split.
  - intros Hd. split.
    + apply (LMM_fix_records true name lw Hd).
    + apply (LMM_fix_records false name lw Hd).
  - unfold LMM.fix_, LMM.unfix. destruct (String.eqb name "delta");
      repeat split.
Qed.

Lemma X23_LMM_fix_unfix_effect_witness :
  "scale" <> "delta" /\
  LMM.fix_ "scale" lmm_fresh = (Ok tt, LMM.on_fix <["scale" := true]> lmm_fresh) /\
  Core.valid_update (LMM.core lmm_fresh) = true /\
  Core.valid_update (LMM.core (snd (LMM.fix_ "scale" lmm_fresh))) = true.
Proof.
  assert (Hd : "scale" <> "delta") by discriminate.
  pose proof (X23_LMM_fix_unfix_effect "scale" lmm_fresh)
    as (_ & _ & Hrec & Hcore & _).
  repeat apply conj.
  - exact Hd.
  - exact (proj1 (Hrec Hd)).
  - reflexivity.
  - rewrite Hcore. reflexivity.
Defined.

(** C3, as the code has it.  For every name other than ['delta'] and
    ['scale'], [FastLMM.fix] and [FastLMM.unfix] raise [ValueError] and
    leave the wrapper as it was.  [LMM] keeps a table of flags with the
    keys ['beta'] and ['scale']: its [fix('beta')] and [unfix('beta')]
    return normally and set that flag to [True], respectively [False]. *)
Theorem C3_invalid_parameter_name
    (name : string) (fw : FastLMM.state) (lw : LMM.state) :
  name <> "delta" -> name <> "scale" ->
  FastLMM.fix_ name fw = (Raise ValueError, fw) /\
  FastLMM.unfix name fw = (Raise ValueError, fw) /\
  LMM._fix (LMM.init (LMM.core lw)) !! "beta" = Some false /\
  LMM.fix_ "beta" lw = (Ok tt, LMM.on_fix <["beta" := true]> lw) /\
  LMM.unfix "beta" lw = (Ok tt, LMM.on_fix <["beta" := false]> lw).
Proof.
  intros Hd Hs. destruct (eqb_other name Hd Hs) as [Ed Es].
  repeat apply conj.
  - unfold FastLMM.fix_, mbind, M_bind, raise. rewrite Ed, Es. reflexivity.
  - unfold FastLMM.unfix, mbind, M_bind, raise. rewrite Ed, Es. reflexivity.
  - reflexivity.
  - reflexivity.
  - reflexivity.
Qed.

Lemma C3_invalid_parameter_name_witness :
  "gamma" <> "delta" /\ "gamma" <> "scale" /\
  FastLMM.fix_ "gamma" fastlmm_fresh = (Raise ValueError, fastlmm_fresh).
Proof.
  assert (Hd : "gamma" <> "delta") by discriminate.
  assert (Hs : "gamma" <> "scale") by discriminate.
  repeat apply conj; try assumption.
  apply (C3_invalid_parameter_name "gamma" fastlmm_fresh lmm_fresh Hd Hs).
Defined.

(** C3 fails on [LMM]: [fix('beta')] does not raise and changes the
    object, and so does [fix] with a name no table knows. *)
Lemma C3_counterexample_LMM_records_name :
  "beta" <> "delta" /\ "beta" <> "scale" /\
  fst (LMM.fix_ "beta" lmm_fresh) = Ok tt /\
  LMM._fix lmm_fresh !! "beta" = Some false /\
  LMM._fix (snd (LMM.fix_ "beta" lmm_fresh)) !! "beta" = Some true /\
  fst (LMM.fix_ "gamma" lmm_fresh) = Ok tt /\
  LMM._fix lmm_fresh !! "gamma" = None /\
  LMM._fix (snd (LMM.fix_ "gamma" lmm_fresh)) !! "gamma" = Some true.
Proof.
  repeat apply conj; try discriminate; reflexivity.
Qed.

(* ================================================================= *)
(** ** The shared log-density *)

Lemma bind_ok {A B} (a : A) (k : A -> result B) : (Ok a ≫= k) = k a.
Proof. reflexivity. Qed.

(** [logpdf] of any instance of the interface, once its five ingredients
    are defined. *)
Lemma logpdf_formula `{ExpFam.ExpFamLik T} (l : T) (x yv th bv av cv : R) :
  ExpFam.theta l x = Ok th ->
  ExpFam.y l = Ok (PyNum yv) ->
  ExpFam.b l th = Ok bv ->
  ExpFam.a l = Ok av ->
  av <> 0 ->
  ExpFam.c l = Ok cv ->
  ExpFam.logpdf l x = Ok (spec_logpdf yv th bv av cv) /\
  ExpFam.pdf l x = Ok (exp (spec_logpdf yv th bv av cv)).
Proof.
  intros Hth Hy Hb Ha Hav Hc.
  assert (Hl : ExpFam.logpdf l x = Ok (spec_logpdf yv th bv av cv)).
  { unfold ExpFam.logpdf.
    rewrite Hth, bind_ok, Hy, bind_ok. simpl num. rewrite bind_ok, Hb, bind_ok.
    rewrite Ha, bind_ok, (div_ok _ _ Hav), bind_ok, Hc, bind_ok.
    reflexivity. }
  split; [exact Hl |].
  unfold ExpFam.pdf. rewrite Hl. reflexivity.
Qed.

(** The cumulant [theta + log1p(exp(-theta))] of the Bernoulli and
    Binomial variants is [log(1 + exp(theta))]. *)
Lemma softplus_identity (theta : R) :
  theta + ln (1 + exp (- theta)) = ln (1 + exp theta).
Proof.
  assert (Hprod : 1 + exp theta = exp theta * (1 + exp (- theta))).
  { rewrite Rmult_plus_distr_l, <- exp_plus, Rplus_opp_r, exp_0. lra. }
  rewrite Hprod, ln_mult, ln_exp.
  - reflexivity.
  - apply exp_pos.
  - apply logistic_den_pos.
Qed.

Lemma logit_defined (p : R) :
  0 < p < 1 -> div p (1 - p) ≫= log = Ok (ln (p / (1 - p))).
Proof.
  intros [H0 H1]. rewrite div_ok by lra. rewrite bind_ok.
  apply log_ok. apply Rdiv_lt_0_compat; lra.
Qed.

Lemma cumulant_defined (theta : R) :
  (log1p (exp (- theta)) ≫= fun t => Ok (theta + t)) =
  Ok (theta + ln (1 + exp (- theta))).
Proof.
  rewrite log1p_ok by (pose proof (exp_pos (- theta)); lra).
  reflexivity.
Qed.

Section Variants.

Context `{ExpFam.Scipy}.

Lemma Delta_logpdf (link : option ExpFam.Link) (yv x : R) :
  let l := DeltaLik.set_outcome (PyNum yv) (DeltaLik.init link) in
  ExpFam.logpdf l x = Ok (spec_logpdf yv 0 0 1 0) /\
  ExpFam.pdf l x = Ok (exp (spec_logpdf yv 0 0 1 0)).
Proof.
  intros l. apply logpdf_formula; try reflexivity. lra.
Qed.

Lemma Bernoulli_logpdf (link : ExpFam.Link) (yv x : R) :
  let p := ExpFam.inv link x in
  let th := ln (p / (1 - p)) in
  let l := BernoulliLik.set_outcome (PyNum yv) (BernoulliLik.init link) in
  0 < p < 1 ->
  ExpFam.logpdf l x =
    Ok (spec_logpdf yv th (th + ln (1 + exp (- th))) 1 0) /\
  ExpFam.pdf l x =
    Ok (exp (spec_logpdf yv th (th + ln (1 + exp (- th))) 1 0)).
Proof.
  intros p th l Hp. apply logpdf_formula; try reflexivity; try lra.
  - simpl. unfold BernoulliLik.theta, BernoulliLik.mean. simpl.
    rewrite ?bind_ok. apply (logit_defined _ Hp).
  - simpl. apply cumulant_defined.
Qed.

Lemma Binomial_logpdf (link : ExpFam.Link) (n k x : R) :
  let p := ExpFam.inv link x in
  let th := ln (p / (1 - p)) in
  let l := BinomialLik.set_nsuccesses (PyNum k) (BinomialLik.init n link) in
  0 < p < 1 -> n <> 0 ->
  ExpFam.logpdf l x =
    Ok (spec_logpdf (k / n) th (th + ln (1 + exp (- th))) (1 / n)
          (ExpFam.logbinom n (k / n * n))) /\
  ExpFam.pdf l x =
    Ok (exp (spec_logpdf (k / n) th (th + ln (1 + exp (- th))) (1 / n)
               (ExpFam.logbinom n (k / n * n)))).
Proof.
  intros p th l Hp Hn.
  assert (Hy : ExpFam.y l = Ok (PyNum (k / n))).
  { simpl. unfold BinomialLik.y. simpl. rewrite ?bind_ok, (div_ok _ _ Hn).
    reflexivity. }
  apply logpdf_formula.
  - simpl. unfold BinomialLik.theta, BinomialLik.mean. simpl.
    rewrite ?bind_ok. apply (logit_defined _ Hp).
  - exact Hy.
  - simpl. apply cumulant_defined.
  - simpl. unfold BinomialLik.a, BinomialLik.phi. simpl.
    rewrite ?bind_ok. apply (div_ok _ _ Hn).
  - unfold Rdiv. rewrite Rmult_1_l. apply Rinv_neq_0_compat. exact Hn.
  - simpl in Hy. simpl. unfold BinomialLik.c. rewrite Hy.
    unfold BinomialLik.phi. simpl. reflexivity.
Qed.

Lemma Poisson_logpdf (link : ExpFam.Link) (k x : R) :
  let mu := ExpFam.inv link x in
  let l := PoissonLik.set_noccurrences (PyNum k) (PoissonLik.init link) in
  0 < mu ->
  ExpFam.logpdf l x =
    Ok (spec_logpdf k (ln mu) (exp (ln mu)) 1 (ExpFam.gammaln (k + 1))) /\
  ExpFam.pdf l x =
    Ok (exp (spec_logpdf k (ln mu) (exp (ln mu)) 1 (ExpFam.gammaln (k + 1)))).
Proof.
  intros mu l Hmu. apply logpdf_formula; try reflexivity; try lra.
  simpl. unfold PoissonLik.theta, PoissonLik.mean. simpl.
  rewrite ?bind_ok. apply (log_ok _ Hmu).
Qed.

End Variants.

(** C4.  Whatever the variant, as soon as [theta(x)], [y], [b(theta)],
    [a()] (non-zero) and [c()] are defined, [logpdf(x)] is
    [(y theta(x) - b(theta(x))) / a() + c()] and [pdf(x)] is its
    exponential; Delta, Bernoulli, Binomial and Poisson are such
    instances on the domain of their link; and for Bernoulli with mean
    [p = link.inv(x)] in [(0, 1)] the value is
    [y log(p/(1-p)) - log(1 + exp(log(p/(1-p))))]. *)
Theorem C4_logpdf_shared_formula `{ExpFam.Scipy} :
  (forall T (L : ExpFam.ExpFamLik T) (l : T) (x yv th bv av cv : R),
      ExpFam.theta l x = Ok th ->
      ExpFam.y l = Ok (PyNum yv) ->
      ExpFam.b l th = Ok bv ->
      ExpFam.a l = Ok av ->
      av <> 0 ->
      ExpFam.c l = Ok cv ->
      ExpFam.logpdf l x = Ok ((yv * th - bv) / av + cv) /\
      ExpFam.pdf l x = Ok (exp ((yv * th - bv) / av + cv))) /\
  (forall (link : option ExpFam.Link) (yv x : R),
      let l := DeltaLik.set_outcome (PyNum yv) (DeltaLik.init link) in
      ExpFam.logpdf l x = Ok ((yv * 0 - 0) / 1 + 0) /\
      ExpFam.pdf l x = Ok (exp ((yv * 0 - 0) / 1 + 0))) /\
  (forall (link : ExpFam.Link) (yv x : R),
      let p := ExpFam.inv link x in
      let th := ln (p / (1 - p)) in
      let l := BernoulliLik.set_outcome (PyNum yv) (BernoulliLik.init link) in
      0 < p < 1 ->
      ExpFam.theta l x = Ok th /\
      ExpFam.logpdf l x = Ok (yv * th - ln (1 + exp th)) /\
      ExpFam.pdf l x = Ok (exp (yv * th - ln (1 + exp th)))) /\
  (forall (link : ExpFam.Link) (n k x : R),
      let p := ExpFam.inv link x in
      let th := ln (p / (1 - p)) in
      let l := BinomialLik.set_nsuccesses (PyNum k) (BinomialLik.init n link) in
      0 < p < 1 -> n <> 0 ->
      ExpFam.logpdf l x =
        Ok ((k / n * th - (th + ln (1 + exp (- th)))) / (1 / n)
            + ExpFam.logbinom n (k / n * n)) /\
      ExpFam.pdf l x =
        Ok (exp ((k / n * th - (th + ln (1 + exp (- th)))) / (1 / n)
                 + ExpFam.logbinom n (k / n * n)))) /\
  (forall (link : ExpFam.Link) (k x : R),
      let mu := ExpFam.inv link x in
      let l := PoissonLik.set_noccurrences (PyNum k) (PoissonLik.init link) in
      0 < mu ->
      ExpFam.logpdf l x =
        Ok ((k * ln mu - exp (ln mu)) / 1 + ExpFam.gammaln (k + 1)) /\
      ExpFam.pdf l x =
        Ok (exp ((k * ln mu - exp (ln mu)) / 1 + ExpFam.gammaln (k + 1)))).
Proof.
  repeat apply conj.
  - intros T L l x yv th bv av cv. apply logpdf_formula.
  - intros link yv x. apply Delta_logpdf.
  - intros link yv x p th l Hp.
    destruct (Bernoulli_logpdf link yv x Hp) as [Hl Hd].
    fold p th l in Hl, Hd.
    assert (Hv : spec_logpdf yv th (th + ln (1 + exp (- th))) 1 0
                 = yv * th - ln (1 + exp th)).
    { unfold spec_logpdf. rewrite softplus_identity. field. }
    rewrite Hv in Hl, Hd. repeat split; try assumption.
    simpl. unfold BernoulliLik.theta, BernoulliLik.mean. simpl.
    apply (logit_defined _ Hp).
  - intros link n k x p th l Hp Hn. apply (Binomial_logpdf link n k x Hp Hn).
  - intros link k x mu l Hmu. apply (Poisson_logpdf link k x Hmu).
Qed.

Lemma C4_logpdf_shared_formula_witness :
  0 < ExpFam.inv identity_link (1 / 2) < 1 /\
  ExpFam.logpdf (H := scipy_model)
    (BernoulliLik.set_outcome (PyNum 1) (BernoulliLik.init identity_link))
    (1 / 2)
  = Ok (1 * ln ((1 / 2) / (1 - 1 / 2)) - ln (1 + exp (ln ((1 / 2) / (1 - 1 / 2))))) /\
  (exists v, ExpFam.logpdf (H := scipy_model)
     (BinomialLik.set_nsuccesses (PyNum 1) (BinomialLik.init 2 identity_link))
     (1 / 2) = Ok v) /\
  (exists v, ExpFam.logpdf (H := scipy_model)
     (PoissonLik.set_noccurrences (PyNum 3) (PoissonLik.init identity_link))
     (1 / 2) = Ok v) /\
  ExpFam.logpdf (H := scipy_model)
    (DeltaLik.set_outcome (PyNum 7) (DeltaLik.init None)) 2
  = Ok ((7 * 0 - 0) / 1 + 0).
Proof.
  assert (Hp : 0 < ExpFam.inv identity_link (1 / 2) < 1) by (simpl; lra).
  assert (Hmu : 0 < ExpFam.inv identity_link (1 / 2)) by (simpl; lra).
  assert (Hn : (2 : R) <> 0) by lra.
  assert (H1 : (1 : R) <> 0) by lra.
  pose proof (C4_logpdf_shared_formula (H := scipy_model))
    as (Hgen & _ & Hbern & Hbin & Hpois).
  split; [exact Hp |].
  repeat apply conj.
  - apply (Hbern identity_link 1 (1 / 2) Hp).
  - eexists. apply (Hbin identity_link 2 1 (1 / 2) Hp Hn).
  - eexists. apply (Hpois identity_link 3 (1 / 2) Hmu).
  - apply (Hgen DeltaLik.state (DeltaLik.lik (H := scipy_model))
             (DeltaLik.set_outcome (PyNum 7) (DeltaLik.init None))
             2 7 0 0 1 0 eq_refl eq_refl eq_refl eq_refl H1 eq_refl).
Defined.

(* ================================================================= *)
(** ** The Delta likelihood *)

(** C9.  For the Delta likelihood with any stored outcome [y] and any
    latent [x]: [theta(x)] is 0, [a()] is 1, [b(0)] is 0, [c()] is 0,
    [logpdf(x)] is 0 and [pdf(x)] is 1, whether or not [y] is [x]; and
    [sample(x, random_state)] returns [x] and leaves the random source as
    it was, whatever the source is. *)
Theorem C9_delta_likelihood `{ExpFam.Scipy}
    (link : option ExpFam.Link) (yv x : R)
    (random_state : option ExpFam.RandomState) :
  let l := DeltaLik.set_outcome (PyNum yv) (DeltaLik.init link) in
  ExpFam.y l = Ok (PyNum yv) /\
  ExpFam.theta l x = Ok 0 /\
  ExpFam.a l = Ok 1 /\
  ExpFam.b l 0 = Ok 0 /\
  ExpFam.c l = Ok 0 /\
  ExpFam.logpdf l x = Ok 0 /\
  ExpFam.pdf l x = Ok 1 /\
  ExpFam.sample l x random_state = (Ok x, random_state).
Proof.
  intros l.
  destruct (Delta_logpdf link yv x) as [Hl Hd]. fold l in Hl, Hd.
  assert (Hv : spec_logpdf yv 0 0 1 0 = 0) by (unfold spec_logpdf; field).
  rewrite Hv in Hl, Hd. rewrite exp_0 in Hd.
  repeat split; try assumption; reflexivity.
Qed.

(* ================================================================= *)
(** ** [latent_variance] *)

(** C8, evaluated on the code.  Reading [latent_variance] on a Binomial
    or Poisson likelihood raises [NotImplementedError]; on a Bernoulli
    likelihood it gives the link's [latent_variance]; on a Delta
    likelihood, whose [latent_variance] carries no [@property], the read
    raises nothing and gives a bound method, and only calling that
    method raises [NotImplementedError]. *)
Theorem C8_latent_variance_reads `{ExpFam.Scipy}
    (dlink : option ExpFam.Link) (link : ExpFam.Link) (n : R) (v : pyval) :
  ExpFam.latent_variance (BinomialLik.set_nsuccesses v (BinomialLik.init n link))
    = Raise NotImplementedError /\
  ExpFam.latent_variance (PoissonLik.set_noccurrences v (PoissonLik.init link))
    = Raise NotImplementedError /\
  ExpFam.latent_variance (BernoulliLik.set_outcome v (BernoulliLik.init link))
    = Ok (AttrValue (ExpFam.link_latent_variance link)) /\
  ExpFam.latent_variance (DeltaLik.set_outcome v (DeltaLik.init dlink))
    = Ok (AttrBoundMethod (Raise NotImplementedError)) /\
  ExpFam.latent_variance (DeltaLik.set_outcome v (DeltaLik.init dlink))
    <> Raise NotImplementedError.
Proof.
  repeat split; discriminate.
Qed.

(* ================================================================= *)
(** ** Poisson and Binomial: the terms that go through [gammaln] *)

Lemma up_INR_succ (n : nat) : up (INR n + 1) = (Z.of_nat n + 2)%Z.
Proof.
  symmetry. apply tech_up; rewrite plus_IZR, <- INR_IZR_INZ; lra.
Qed.

Lemma gammaln_model_fact (n : nat) :
  gammaln_model (INR n + 1) = ln (INR (fact n)).
Proof.
  unfold gammaln_model. rewrite up_INR_succ.
  replace (Z.of_nat n + 2 - 2)%Z with (Z.of_nat n) by lia.
  rewrite Nat2Z.id. reflexivity.
Qed.

Lemma gammaln_model_one : gammaln_model 1 = 0.
Proof.
  replace 1 with (INR 0 + 1) by (simpl; lra).
  rewrite gammaln_model_fact. simpl. apply ln_1.
Qed.

Lemma gammaln_model_succ (n : nat) :
  gammaln_model (INR (S n) + 1) = ln (INR (S n)) + gammaln_model (INR n + 1).
Proof.
  rewrite !gammaln_model_fact.
  change (fact (S n)) with (S n * fact n)%nat.
  rewrite mult_INR, ln_mult; [reflexivity | | apply INR_fact_lt_0].
  apply lt_0_INR. lia.
Qed.

Section LogGamma.

Context `{ExpFam.Scipy}.

(** What is used of [scipy.special.gammaln], the logarithm of the Gamma
    function: its value at 1 and its recurrence at the positive
    integers. *)
Hypothesis gammaln_one : ExpFam.gammaln 1 = 0.

Hypothesis gammaln_succ : forall n : nat,
  ExpFam.gammaln (INR (S n) + 1) = ln (INR (S n)) + ExpFam.gammaln (INR n + 1).

Lemma gammaln_fact (n : nat) : ExpFam.gammaln (INR n + 1) = ln (INR (fact n)).
Proof using gammaln_one gammaln_succ.
  induction n as [| n IH].
  - replace (INR 0 + 1) with 1 by (simpl; lra).
    rewrite gammaln_one. simpl. symmetry. apply ln_1.
  - rewrite gammaln_succ, IH.
    change (fact (S n)) with (S n * fact n)%nat.
    rewrite mult_INR, ln_mult; [reflexivity | | apply INR_fact_lt_0].
    apply lt_0_INR. lia.
Qed.

Lemma logbinom_C (n k : nat) :
  (k <= n)%nat -> ExpFam.logbinom (INR n) (INR k) = ln (C n k).
Proof using gammaln_one gammaln_succ.
  intros Hkn. unfold ExpFam.logbinom.
  rewrite <- (minus_INR n k Hkn), !gammaln_fact.
  pose proof (INR_fact_lt_0 n) as Hn.
  pose proof (INR_fact_lt_0 k) as Hk.
  pose proof (INR_fact_lt_0 (n - k)) as Hnk.
  unfold C, Rdiv.
  rewrite ln_mult, ln_Rinv, ln_mult; try assumption.
  - lra.
  - apply Rmult_lt_0_compat; assumption.
  - apply Rinv_0_lt_compat, Rmult_lt_0_compat; assumption.
Qed.

(** C6.  For the Poisson likelihood with observed count [k]: [c()] is
    [log(k!)], [b(theta)] is [exp(theta)] for every [theta], [a()] is 1,
    and with [k = 0], at every latent [x] where [theta(x)] is defined,
    [logpdf(x)] is [-exp(theta(x))]. *)
Theorem C6_poisson_terms (link : ExpFam.Link) (k : nat) (theta x : R) :
  let l := PoissonLik.set_noccurrences (PyNum (INR k)) (PoissonLik.init link) in
  let l0 := PoissonLik.set_noccurrences (PyNum 0) (PoissonLik.init link) in
  ExpFam.c l = Ok (ln (INR (fact k))) /\
  ExpFam.b l theta = Ok (exp theta) /\
  ExpFam.a l = Ok 1 /\
  (forall th, ExpFam.theta l0 x = Ok th ->
              ExpFam.logpdf l0 x = Ok (- exp th)).
Proof using gammaln_one gammaln_succ.
  intros l l0. repeat apply conj; try reflexivity.
  - simpl. unfold PoissonLik.c. simpl. rewrite gammaln_fact. reflexivity.
  - intros th Hth.
    assert (Hc : ExpFam.c l0 = Ok 0).
    { simpl. unfold PoissonLik.c. simpl. rewrite Rplus_0_l, gammaln_one.
      reflexivity. }
    assert (H1 : (1 : R) <> 0) by lra.
    destruct (logpdf_formula l0 x 0 th (exp th) 1 0 Hth eq_refl eq_refl
                eq_refl H1 Hc) as [Hl _].
    rewrite Hl. f_equal. unfold spec_logpdf. field.
Qed.

(** C7.  For a Binomial likelihood with [ntrials = n] and
    [nsuccesses = k]: the setter stores [k] whatever [n] is; with
    [n <> 0], and no other relation between [k] and [n], [phi] is [n],
    [a()] is [1/n], [y] is [k/n] and [c()] is [logbinom(phi, y phi)];
    with [n = 0] the ratio [y] is a division by zero; and when [k] and
    [n] are counts with [0 <= k <= n], [0 < n], [c()] is the logarithm of
    the binomial coefficient [C n k]. *)
Theorem C7_binomial_terms (link : ExpFam.Link) :
  (forall (n : R) (v : pyval),
      let l := BinomialLik.set_nsuccesses v (BinomialLik.init n link) in
      BinomialLik._nsuccesses l = v /\
      BinomialLik._ntrials l = n /\
      ExpFam.ytuple l = Ok [v; PyNum n] /\
      ExpFam.phi l = Ok n) /\
  (forall (n k : R),
      let l := BinomialLik.set_nsuccesses (PyNum k) (BinomialLik.init n link) in
      n <> 0 ->
      ExpFam.a l = Ok (1 / n) /\
      ExpFam.y l = Ok (PyNum (k / n)) /\
      ExpFam.c l = Ok (ExpFam.logbinom n (k / n * n))) /\
  (forall (k : R),
      let l := BinomialLik.set_nsuccesses (PyNum k) (BinomialLik.init 0 link) in
      ExpFam.y l = Raise ZeroDivisionError) /\
  (forall (n k : nat),
      let l := BinomialLik.set_nsuccesses (PyNum (INR k))
                 (BinomialLik.init (INR n) link) in
      (0 < n)%nat -> (k <= n)%nat ->
      ExpFam.c l = Ok (ln (C n k))).
Proof using gammaln_one gammaln_succ.
  assert (Hreal : forall (n k : R),
      let l := BinomialLik.set_nsuccesses (PyNum k) (BinomialLik.init n link) in
      n <> 0 ->
      ExpFam.a l = Ok (1 / n) /\
      ExpFam.y l = Ok (PyNum (k / n)) /\
      ExpFam.c l = Ok (ExpFam.logbinom n (k / n * n))).
  { intros n k l Hn.
    assert (Hy : BinomialLik.y l = Ok (PyNum (k / n))).
    { unfold BinomialLik.y. simpl. rewrite ?bind_ok, (div_ok _ _ Hn).
      reflexivity. }
    repeat apply conj.
    - simpl. unfold BinomialLik.a, BinomialLik.phi. simpl.
      rewrite ?bind_ok. apply (div_ok _ _ Hn).
    - exact Hy.
    - simpl. unfold BinomialLik.c. rewrite Hy. reflexivity. }
  repeat apply conj.
  - intros n v l. repeat apply conj; reflexivity.
  - exact Hreal.
  - intros k l. simpl. unfold BinomialLik.y. simpl.
    rewrite ?bind_ok, div_zero. reflexivity.
  - intros n k l Hn Hkn.
    assert (Hn0 : INR n <> 0) by (apply not_0_INR; lia).
    destruct (Hreal (INR n) (INR k) Hn0) as (_ & _ & Hc).
    fold l in Hc. rewrite Hc. f_equal.
    replace (INR k / INR n * INR n) with (INR k) by (field; exact Hn0).
    apply logbinom_C. exact Hkn.
Qed.

End LogGamma.

Lemma C6_poisson_terms_witness :
  ExpFam.gammaln (Scipy := scipy_model) 1 = 0 /\
  ExpFam.theta (H := scipy_model)
    (PoissonLik.set_noccurrences (PyNum 0) (PoissonLik.init identity_link)) 2
  = Ok (ln 2) /\
  ExpFam.c (H := scipy_model)
    (PoissonLik.set_noccurrences (PyNum (INR 3)) (PoissonLik.init identity_link))
  = Ok (ln (INR (fact 3))) /\
  ExpFam.logpdf (H := scipy_model)
    (PoissonLik.set_noccurrences (PyNum 0) (PoissonLik.init identity_link)) 2
  = Ok (- exp (ln 2)).
Proof.
  assert (Hth : ExpFam.theta (H := scipy_model)
            (PoissonLik.set_noccurrences (PyNum 0) (PoissonLik.init identity_link)) 2
          = Ok (ln 2)).
  { simpl. unfold PoissonLik.theta, PoissonLik.mean. simpl.
    rewrite ?bind_ok. apply log_ok. lra. }
  pose proof (C6_poisson_terms (H := scipy_model) gammaln_model_one
                gammaln_model_succ identity_link 3 0 2) as (Hc & _ & _ & Hl).
  repeat apply conj.
  - exact gammaln_model_one.
  - exact Hth.
  - exact Hc.
  - exact (Hl (ln 2) Hth).
Defined.

Lemma C7_binomial_terms_witness :
  (0 < 4)%nat /\ (1 <= 4)%nat /\ (4 : R) <> 0 /\
  ExpFam.y (H := scipy_model)
    (BinomialLik.set_nsuccesses (PyNum 1) (BinomialLik.init 4 identity_link))
  = Ok (PyNum (1 / 4)) /\
  ExpFam.c (H := scipy_model)
    (BinomialLik.set_nsuccesses (PyNum (INR 1))
       (BinomialLik.init (INR 4) identity_link))
  = Ok (ln (C 4 1)).
Proof.
  assert (H04 : (0 < 4)%nat) by lia.
  assert (H14 : (1 <= 4)%nat) by lia.
  assert (H4 : (4 : R) <> 0) by lra.
  pose proof (C7_binomial_terms (H := scipy_model) gammaln_model_one
                gammaln_model_succ identity_link) as (_ & Hreal & _ & Hc).
  repeat apply conj;
    [exact H04 | exact H14 | exact H4
    | exact (proj1 (proj2 (Hreal 4 1 H4)))
    | exact (Hc 4%nat 1%nat H04 H14)].
Defined.

(* ================================================================= *)
(** ** Variance components and heritability *)

Lemma div_by_zero (a b : R) : b = 0 -> div a b = Raise ZeroDivisionError.
Proof. intros ->. apply div_zero. Qed.

Lemma INR_length_pos {A} (x : A) (l : list A) : 0 < INR (length (x :: l)).
Proof. apply lt_0_INR. simpl. lia. Qed.

Lemma mean_cons (x : R) (l : list R) :
  mean (x :: l) = Ok (sum (x :: l) / INR (length (x :: l))).
Proof.
  unfold mean. apply div_ok.
  pose proof (INR_length_pos x l). lra.
Qed.

Lemma mean_nil : mean [] = Raise ZeroDivisionError.
Proof. unfold mean. apply div_by_zero. reflexivity. Qed.











(* ================================================================= *)
(** ** The sampler and the store *)

Lemma M_bind_ok {S A B} (m : M S A) (k : A -> M S B) (s s' : S) (a : A) :
  m s = (Ok a, s') -> (m ≫= k) s = k a s'.
Proof. intros Hm. unfold mbind, M_bind. rewrite Hm. reflexivity. Qed.

Lemma deref_ok (h : GP.store) (p : GP.addr) (arr : GP.ndarray) :
  h !! p = Some arr -> GP.deref p h = (Ok arr, h).
Proof. intros Hp. unfold GP.deref. rewrite Hp. reflexivity. Qed.

Lemma fresh_not_allocated (h : GP.store) (p : GP.addr) (arr : GP.ndarray) :
  h !! p = Some arr -> p <> fresh (dom h).
Proof.
  intros Hp Heq.
  apply (is_fresh (dom h)). rewrite <- Heq.
  apply elem_of_dom. exists arr. exact Hp.
Qed.

(** [copy] leaves every array of the store as it is and returns the
    address of a new one. *)
Lemma copy_spec (h : GP.store) (p : GP.addr) (arr : GP.ndarray) :
  h !! p = Some arr ->
  GP.copy p h = (Ok (fresh (dom h)), <[fresh (dom h) := arr]> h).
Proof.
  intros Hp. unfold GP.copy.
  rewrite (M_bind_ok _ _ h h arr (deref_ok h p arr Hp)). reflexivity.
Qed.

(** [sum2diag(K, D, out=K)] writes into the array [K] names. *)
Lemma sum2diag_in_place (h : GP.store) (K : GP.addr) (D : R) (A : list (list R)) :
  h !! K = Some (GP.Mat A) ->
  GP.sum2diag K D K h = (Ok tt, <[K := GP.Mat (GP.add_diag_from 0 D A)]> h).
Proof.
  intros HK. unfold GP.sum2diag.
  rewrite (M_bind_ok _ _ h h _ (deref_ok h K _ HK)).
  rewrite (M_bind_ok _ _ h h _ (deref_ok h K _ HK)).
  reflexivity.
Qed.

(** Applied to the array the covariance object holds, it changes that
    array: this is what the copy is there to prevent. *)
Lemma sum2diag_changes_shared_array :
  snd (GP.sum2diag 2%positive 1 2%positive store_example) !! 2%positive
  = Some (GP.Mat [[1 + 1; 0]; [0; 1 + 1]]).
Proof.
  rewrite (sum2diag_in_place store_example 2%positive 1 [[1; 0]; [0; 1]] eq_refl).
  simpl snd. rewrite lookup_insert_eq. reflexivity.
Qed.

(** C10.  [GPSampler.sample] copies the matrix of the covariance object
    to a new address, adds [epsilon.small] to the diagonal of that copy
    and draws from the mean and the copy: after the call the covariance
    object's array and the mean's array are what they were, as is every
    array the store had, and the only change is the new array. *)
Theorem C10_sample_keeps_covariance `{GP.Numpy}
    (g : GP.state) (random_state : option GP.RandomState) (h : GP.store)
    (vm : GP.ndarray) (A : list (list R)) :
  h !! GP.data (GP._mean g) = Some vm ->
  h !! GP.data (GP._cov g) = Some (GP.Mat A) ->
  let K := fresh (dom h) in
  let A' := GP.Mat (GP.add_diag_from 0 GP.epsilon_small A) in
  let rs := match random_state with
            | None => GP.new_RandomState
            | Some r => r
            end in
  let h' := snd (GP.sample g random_state h) in
  fst (GP.sample g random_state h) =
    match fst (GP.multivariate_normal vm A' rs) with
    | Ok v => Ok (v, snd (GP.multivariate_normal vm A' rs))
    | Raise e => Raise e
    end /\
  h !! K = None /\
  h' = <[K := A']> h /\
  h' !! GP.data (GP._cov g) = Some (GP.Mat A) /\
  h' !! GP.data (GP._mean g) = Some vm /\
  (forall p arr, h !! p = Some arr -> h' !! p = Some arr).
Proof.
  intros Hm Hc K A' rs h'.
  assert (HK : h !! K = None).
  { apply not_elem_of_dom. apply is_fresh. }
  assert (Hframe : forall p arr, h !! p = Some arr ->
                                <[K := A']> h !! p = Some arr).
  { intros p arr Hp. rewrite lookup_insert_ne; [exact Hp |].
    intros Heq. apply (fresh_not_allocated h p arr Hp). symmetry. exact Heq. }
  assert (Hrun : GP.sample g random_state h =
                 (match fst (GP.multivariate_normal vm A' rs) with
                  | Ok v => Ok (v, snd (GP.multivariate_normal vm A' rs))
                  | Raise e => Raise e
                  end, <[K := A']> h)).
  { unfold GP.sample. fold rs.
    rewrite (M_bind_ok _ _ h h (GP.data (GP._mean g)) eq_refl).
    rewrite (M_bind_ok _ _ h h (GP.data (GP._cov g)) eq_refl).
    rewrite (M_bind_ok _ _ _ _ _ (copy_spec h _ _ Hc)). fold K.
    rewrite (M_bind_ok _ _ _ (<[K := A']> h) tt).
    2:{ rewrite (sum2diag_in_place _ K GP.epsilon_small A)
          by apply lookup_insert_eq.
        rewrite insert_insert_eq. reflexivity. }
    rewrite (M_bind_ok _ _ _ _ _ (deref_ok _ _ _ (Hframe _ _ Hm))).
    rewrite (M_bind_ok _ _ _ _ _ (deref_ok _ K A' (lookup_insert_eq _ _ _))).
    destruct (GP.multivariate_normal vm A' rs) as [[v | e] rs']; reflexivity. }
  subst h'. rewrite Hrun. simpl fst. simpl snd.
  repeat apply conj; try reflexivity; try assumption.
  - apply Hframe. exact Hc.
  - apply Hframe. exact Hm.
Qed.

Lemma C10_sample_keeps_covariance_witness :
  store_example !! 1%positive = Some (GP.Vec [0; 0]) /\
  store_example !! 2%positive = Some (GP.Mat [[1; 0]; [0; 1]]) /\
  fst (GP.sample (H := numpy_model) sampler_example None store_example)
  = Ok (GP.Vec [0; 0], 1%nat) /\
  snd (GP.sample (H := numpy_model) sampler_example None store_example)
    !! 2%positive
  = Some (GP.Mat [[1; 0]; [0; 1]]).
Proof.
  assert (Hm : store_example !! GP.data (GP._mean sampler_example)
               = Some (GP.Vec [0; 0])) by reflexivity.
  assert (Hc : store_example !! GP.data (GP._cov sampler_example)
               = Some (GP.Mat [[1; 0]; [0; 1]])) by reflexivity.
  pose proof (C10_sample_keeps_covariance (H := numpy_model) sampler_example
                None store_example _ _ Hm Hc) as (Hr & _ & _ & Hcov & _ & _).
  repeat apply conj; [exact Hm | exact Hc | exact Hr | exact Hcov].
Defined.

(* ================================================================= *)
(** ** More on the delta transform *)

Lemma clip_inside (a lo hi : R) : lo <= a <= hi -> clip a lo hi = a.
Proof.
  intros [Hlo Hhi]. unfold clip, Rmin, Rmax.
  destruct (Rle_dec a lo); destruct (Rle_dec hi _); lra.
Qed.

Lemma clip_mono (a b lo hi : R) : a <= b -> clip a lo hi <= clip b lo hi.
Proof.
  intros Hab. unfold clip, Rmin, Rmax.
  destruct (Rle_dec a lo); destruct (Rle_dec b lo);
    repeat match goal with |- context [Rle_dec ?x ?y] => destruct (Rle_dec x y) end;
    lra.
Qed.

Lemma clip_opp (a h : R) : 0 <= h -> clip (- a) (- h) h = - clip a (- h) h.
Proof.
  intros Hh. unfold clip, Rmin, Rmax.
  destruct (Rle_dec (- a) (- h)); destruct (Rle_dec a (- h));
    repeat match goal with |- context [Rle_dec ?x ?y] => destruct (Rle_dec x y) end;
    lra.
Qed.

Lemma clip_reflect (x l : R) :
  l <= 1 - l -> clip (1 - x) l (1 - l) = 1 - clip x l (1 - l).
Proof.
  intros Hl. unfold clip, Rmin, Rmax.
  destruct (Rle_dec (1 - x) l); destruct (Rle_dec x l);
  repeat match goal with |- context [Rle_dec ?x ?y] => destruct (Rle_dec x y) end;
    lra.
Qed.

Lemma exp_le_mono (x y : R) : x <= y -> exp x <= exp y.
Proof.
  intros [Hlt | ->]; [left; apply exp_increasing; exact Hlt | right; reflexivity].
Qed.

Lemma logistic_mono (u v : R) :
  u <= v -> 1 / (1 + exp (- u)) <= 1 / (1 + exp (- v)).
Proof.
  intros Huv.
  pose proof (exp_pos (- u)) as Hu. pose proof (exp_pos (- v)) as Hv.
  assert (Hexp : exp (- v) <= exp (- u)) by (apply exp_le_mono; lra).
  unfold Rdiv. rewrite !Rmult_1_l.
  apply Rinv_le_contravar; lra.
Qed.

Lemma logistic_reflect (u : R) :
  1 / (1 + exp (- - u)) = 1 - 1 / (1 + exp (- u)).
Proof.
  rewrite Ropp_involutive.
  pose proof (exp_pos u) as Hu. pose proof (exp_pos (- u)) as Hu'.
  assert (Hprod : exp u * exp (- u) = 1).
  { rewrite <- exp_plus, Rplus_opp_r. apply exp_0. }
  apply Rmult_eq_reg_r with (r := (1 + exp u) * (1 + exp (- u))).
  - field_simplify; [| lra | lra]. nra.
  - apply Rmult_integral_contrapositive_currified; lra.
Qed.

Lemma spec_delta_mono (u v : R) : u <= v -> spec_delta u <= spec_delta v.
Proof.
  intros Huv. unfold spec_delta.
  apply clip_mono, logistic_mono, clip_mono. exact Huv.
Qed.

Lemma spec_delta_reflect (v : R) : spec_delta (- v) = 1 - spec_delta v.
Proof.
  unfold spec_delta.
  change (-20) with (- (20)).
  rewrite clip_opp by lra. rewrite logistic_reflect. apply clip_reflect. lra.
Qed.

Lemma exp_20_large : 99999 < exp 20.
Proof.
  assert (H1 : 2 <= exp 1) by (pose proof (exp_ineq1_le 1); lra).
  assert (H2 : exp 2 = exp 1 * exp 1) by (rewrite <- exp_plus; f_equal; lra).
  assert (H4 : exp 4 = exp 2 * exp 2) by (rewrite <- exp_plus; f_equal; lra).
  assert (H5 : exp 5 = exp 4 * exp 1) by (rewrite <- exp_plus; f_equal; lra).
  assert (H10 : exp 10 = exp 5 * exp 5) by (rewrite <- exp_plus; f_equal; lra).
  assert (H20 : exp 20 = exp 10 * exp 10) by (rewrite <- exp_plus; f_equal; lra).
  assert (G2 : 4 <= exp 2) by nra.
  assert (G4 : 16 <= exp 4) by nra.
  assert (G5 : 32 <= exp 5) by nra.
  assert (G10 : 1024 <= exp 10) by nra.
  nra.
Qed.

Lemma ln_99999_bounds : 0 < ln 99999 < 20.
Proof.
  split.
  - rewrite <- ln_1. apply ln_increasing; lra.
  - rewrite <- (ln_exp 20). apply ln_increasing; [lra | apply exp_20_large].
Qed.

(** Between [-log 99999] and [log 99999] neither clip acts. *)
Lemma spec_delta_unclipped (v : R) :
  - ln 99999 <= v <= ln 99999 -> spec_delta v = 1 / (1 + exp (- v)).
Proof.
  intros [Hlo Hhi]. pose proof ln_99999_bounds as [HL0 HL20].
  unfold spec_delta. rewrite (clip_inside v) by lra.
  apply clip_inside.
  pose proof (exp_pos (- v)) as Hpos.
  assert (Hup : exp (- v) <= 99999).
  { rewrite <- (exp_ln 99999) by lra. apply exp_le_mono. lra. }
  assert (Hdown : / 99999 <= exp (- v)).
  { rewrite <- (exp_ln 99999) at 1 by lra. rewrite <- exp_Ropp.
    apply exp_le_mono. lra. }
  assert (Hq : 1 / (1 + exp (- v)) * (1 + exp (- v)) = 1) by (field; lra).
  assert (Hq0 : 0 < 1 / (1 + exp (- v))) by (apply Rdiv_lt_0_compat; lra).
  assert (H9 : / 99999 * 99999 = 1) by (apply Rinv_l; lra).
  set (q := 1 / (1 + exp (- v))) in *.
  set (e := exp (- v)) in *.
  set (r := / 99999) in *.
  assert (Hqe : q * e <= q * 99999) by (apply Rmult_le_compat_l; lra).
  assert (Hqr : q * r <= q * e) by (apply Rmult_le_compat_l; lra).
  split; nra.
Qed.

Lemma spec_delta_at_bound : spec_delta (ln 99999) = 1 - 1e-5.
Proof.
  pose proof ln_99999_bounds as [HL0 HL20].
  rewrite spec_delta_unclipped by lra.
  rewrite exp_Ropp, exp_ln by lra. field.
Qed.

Lemma spec_delta_saturates_high (v : R) :
  ln 99999 <= v -> spec_delta v = 1 - 1e-5.
Proof.
  intros Hv. apply Rle_antisym.
  - apply spec_delta_range.
  - rewrite <- spec_delta_at_bound. apply spec_delta_mono. exact Hv.
Qed.

Lemma spec_delta_saturates_low (v : R) :
  v <= - ln 99999 -> spec_delta v = 1e-5.
Proof.
  intros Hv.
  replace v with (- - v) by lra.
  rewrite spec_delta_reflect, spec_delta_saturates_high by lra. lra.
Qed.

(** X1.  The delta both wrappers compute does not decrease when the free
    parameter grows. *)
Theorem X1_delta_monotone
    (fw1 fw2 : FastLMM.state) (lw1 lw2 : LMM.state) :
  Optimix.get_logistic (FastLMM.func fw1) <= Optimix.get_logistic (FastLMM.func fw2) ->
  Optimix.get_logistic (LMM.func lw1) <= Optimix.get_logistic (LMM.func lw2) ->
  (exists d1 d2, FastLMM._delta fw1 = Ok d1 /\ FastLMM._delta fw2 = Ok d2 /\ d1 <= d2) /\
  (exists d1 d2, LMM._get_delta lw1 = Ok d1 /\ LMM._get_delta lw2 = Ok d2 /\ d1 <= d2).
Proof.
  intros HF HL. split.
  - eexists; eexists. rewrite !FastLMM_delta_spec.
    repeat split. apply spec_delta_mono. exact HF.
  - eexists; eexists. rewrite !LMM_get_delta_spec.
    repeat split. apply spec_delta_mono. exact HL.
Qed.

Lemma X1_delta_monotone_witness :
  exists d1 d2, FastLMM._delta (fastlmm_at 0) = Ok d1 /\
                FastLMM._delta (fastlmm_at 3) = Ok d2 /\ d1 <= d2.
Proof.
  assert (HF : Optimix.get_logistic (FastLMM.func (fastlmm_at 0))
               <= Optimix.get_logistic (FastLMM.func (fastlmm_at 3))) by (unfold Optimix.get_logistic; simpl; lra).
  assert (HL : Optimix.get_logistic (LMM.func (lmm_at 0))
               <= Optimix.get_logistic (LMM.func (lmm_at 3))) by (unfold Optimix.get_logistic; simpl; lra).
  exact (proj1 (X1_delta_monotone (fastlmm_at 0) (fastlmm_at 3)
                  (lmm_at 0) (lmm_at 3) HF HL)).
Defined.

(** X2.  Negating the free parameter reflects delta around one half:
    the delta at [-v] is one minus the delta at [v]; in particular a
    wrapper whose parameter is 0 (as after construction) has delta 1/2. *)
Theorem X2_delta_reflection
    (fw1 fw2 : FastLMM.state) (lw1 lw2 : LMM.state) :
  Optimix.get_logistic (FastLMM.func fw2) = - Optimix.get_logistic (FastLMM.func fw1) ->
  Optimix.get_logistic (LMM.func lw2) = - Optimix.get_logistic (LMM.func lw1) ->
  (exists d, FastLMM._delta fw1 = Ok d /\ FastLMM._delta fw2 = Ok (1 - d)) /\
  (exists d, LMM._get_delta lw1 = Ok d /\ LMM._get_delta lw2 = Ok (1 - d)) /\
  (Optimix.get_logistic (FastLMM.func fw1) = 0 -> FastLMM._delta fw1 = Ok (1 / 2)) /\
  (Optimix.get_logistic (LMM.func lw1) = 0 -> LMM._get_delta lw1 = Ok (1 / 2)).
Proof.
  intros HF HL.
  assert (Hzero : spec_delta 0 = 1 / 2).
  { pose proof (spec_delta_reflect 0) as H0.
    replace (- 0) with 0 in H0 by lra. lra. }
  repeat apply conj.
  - eexists. rewrite !FastLMM_delta_spec, HF, spec_delta_reflect. split; reflexivity.
  - eexists. rewrite !LMM_get_delta_spec, HL, spec_delta_reflect. split; reflexivity.
  - intros H0. rewrite FastLMM_delta_spec, H0, Hzero. reflexivity.
  - intros H0. rewrite LMM_get_delta_spec, H0, Hzero. reflexivity.
Qed.

Lemma X2_delta_reflection_witness :
  FastLMM._delta (fastlmm_at 0) = Ok (1 / 2) /\
  exists d, LMM._get_delta (lmm_at 3) = Ok d /\
            LMM._get_delta (lmm_at (- 3)) = Ok (1 - d).
Proof.
  assert (HF : Optimix.get_logistic (FastLMM.func (fastlmm_at 0))
               = - Optimix.get_logistic (FastLMM.func (fastlmm_at 0))) by (unfold Optimix.get_logistic; simpl; lra).
  assert (HL : Optimix.get_logistic (LMM.func (lmm_at (- 3)))
               = - Optimix.get_logistic (LMM.func (lmm_at 3))) by reflexivity.
  pose proof (X2_delta_reflection (fastlmm_at 0) (fastlmm_at 0)
                (lmm_at 3) (lmm_at (- 3)) HF HL) as (_ & HLd & Hz & _).
  split; [apply Hz; reflexivity | exact HLd].
Defined.

(** X3.  The outer clip alone decides where delta saturates: with
    [L = log 99999] (less than 20), delta is [1 - 1e-5] for every
    parameter [>= L], [1e-5] for every parameter [<= -L], and the
    unclipped logistic [1 / (1 + exp(-v))] in between; the clip of the
    parameter to [-20, 20] never changes the result.  So two different
    parameters beyond [L] give the same delta. *)
Theorem X3_delta_saturation (fw : FastLMM.state) (lw : LMM.state) :
  let vF := Optimix.get_logistic (FastLMM.func fw) in
  let vL := Optimix.get_logistic (LMM.func lw) in
  0 < ln 99999 < 20 /\
  (ln 99999 <= vF -> FastLMM._delta fw = Ok (1 - 1e-5)) /\
  (vF <= - ln 99999 -> FastLMM._delta fw = Ok 1e-5) /\
  (- ln 99999 <= vF <= ln 99999 -> FastLMM._delta fw = Ok (1 / (1 + exp (- vF)))) /\
  (ln 99999 <= vL -> LMM._get_delta lw = Ok (1 - 1e-5)) /\
  (vL <= - ln 99999 -> LMM._get_delta lw = Ok 1e-5) /\
  (- ln 99999 <= vL <= ln 99999 -> LMM._get_delta lw = Ok (1 / (1 + exp (- vL)))).
Proof.
  intros vF vL. split; [exact ln_99999_bounds |].
  repeat apply conj; intros Hv.
  - rewrite FastLMM_delta_spec. fold vF. rewrite spec_delta_saturates_high by exact Hv. reflexivity.
  - rewrite FastLMM_delta_spec. fold vF. rewrite spec_delta_saturates_low by exact Hv. reflexivity.
  - rewrite FastLMM_delta_spec. fold vF. rewrite spec_delta_unclipped by exact Hv. reflexivity.
  - rewrite LMM_get_delta_spec. fold vL. rewrite spec_delta_saturates_high by exact Hv. reflexivity.
  - rewrite LMM_get_delta_spec. fold vL. rewrite spec_delta_saturates_low by exact Hv. reflexivity.
  - rewrite LMM_get_delta_spec. fold vL. rewrite spec_delta_unclipped by exact Hv. reflexivity.
Qed.

Lemma X3_delta_saturation_witness :
  FastLMM._delta (fastlmm_at 20) = Ok (1 - 1e-5) /\
  FastLMM._delta (fastlmm_at 25) = Ok (1 - 1e-5) /\
  LMM._get_delta (lmm_at (- 20)) = Ok 1e-5 /\
  LMM._get_delta (lmm_at 0) = Ok (1 / (1 + exp (- 0))).
Proof.
  pose proof ln_99999_bounds as [HL0 HL20].
  repeat apply conj.
  - apply (X3_delta_saturation (fastlmm_at 20) (lmm_at 0)); unfold Optimix.get_logistic; simpl; lra.
  - apply (X3_delta_saturation (fastlmm_at 25) (lmm_at 0)); unfold Optimix.get_logistic; simpl; lra.
  - apply (X3_delta_saturation (fastlmm_at 0) (lmm_at (- 20))); unfold Optimix.get_logistic; simpl; lra.
  - apply (X3_delta_saturation (fastlmm_at 0) (lmm_at 0)); unfold Optimix.get_logistic; simpl; lra.
Defined.

(* ================================================================= *)
(** ** [learn], [copy] and sequences of calls *)

Lemma FastLMM_assign_delta_run (w : FastLMM.state) :
  FastLMM.assign_delta w =
  (Ok tt, FastLMM.on_flmmc
            (Core.set_delta (spec_delta (Optimix.get_logistic (FastLMM.func w)))) w).
Proof. unfold FastLMM.assign_delta. rewrite FastLMM_delta_spec. reflexivity. Qed.

Lemma LMM_assign_delta_run (w : LMM.state) :
  LMM.assign_delta w =
  (Ok tt, LMM.on_core
            (Core.set_delta (spec_delta (Optimix.get_logistic (LMM.func w)))) w).
Proof. unfold LMM.assign_delta. rewrite LMM_get_delta_spec. reflexivity. Qed.

Lemma M_bind_raise {S A B} (m : M S A) (k : A -> M S B) (s s' : S) (e : exn) :
  m s = (Raise e, s') -> (m ≫= k) s = (Raise e, s').
Proof. intros Hm. unfold mbind, M_bind. rewrite Hm. reflexivity. Qed.

(** X4.  Whatever the optimiser and [update()] did, as long as they
    returned, [learn()] returns with the Core's delta equal to the
    transform of the value [logistic] holds at that point, a number of
    [[1e-5, 1 - 1e-5]], and with [logistic] as the optimiser left it; if
    the optimiser raises, [learn()] raises the same error and assigns
    nothing. *)
Theorem X4_learn_assigns_delta
    `{FastLMM.Optimiser} `{Core.Methods} `{LMM.Optimiser}
    (fw fw1 : FastLMM.state) (lw lw1 lw2 : LMM.state) :
  let dF := spec_delta (Optimix.get_logistic (FastLMM.func fw1)) in
  let dL := spec_delta (Optimix.get_logistic (LMM.func lw2)) in
  (FastLMM.maximize_scalar fw = (Ok tt, fw1) ->
     FastLMM.learn fw =
       (Ok tt, FastLMM.on_flmmc (fun c => Core.set_delta dF (Core.update c)) fw1) /\
     Core.delta (FastLMM._flmmc (snd (FastLMM.learn fw))) = dF /\
     FastLMM.func (snd (FastLMM.learn fw)) = FastLMM.func fw1 /\
     1e-5 <= dF <= 1 - 1e-5) /\
  (forall e, FastLMM.maximize_scalar fw = (Raise e, fw1) ->
     FastLMM.learn fw = (Raise e, fw1)) /\
  (LMM.maximize_scalar lw = (Ok tt, lw1) ->
   LMM.LMMCore_update lw1 = (Ok tt, lw2) ->
     LMM.learn lw = (Ok tt, LMM.on_core (Core.set_delta dL) lw2) /\
     Core.delta (LMM.core (snd (LMM.learn lw))) = dL /\
     1e-5 <= dL <= 1 - 1e-5) /\
  (forall e, LMM.maximize_scalar lw = (Raise e, lw1) ->
     LMM.learn lw = (Raise e, lw1)).
Proof.
  intros dF dL. repeat apply conj.
  - intros Hopt.
    assert (Hrun : FastLMM.learn fw =
       (Ok tt, FastLMM.on_flmmc (fun c => Core.set_delta dF (Core.update c)) fw1)).
    { unfold FastLMM.learn. rewrite (M_bind_ok _ _ _ _ _ Hopt).
      rewrite (M_bind_ok _ _ fw1 (FastLMM.on_flmmc Core.update fw1) tt eq_refl).
      rewrite FastLMM_assign_delta_run. reflexivity. }
    rewrite Hrun. repeat split; apply spec_delta_range.
  - intros e Hopt. unfold FastLMM.learn. apply M_bind_raise. exact Hopt.
  - intros Hopt Hupd.
    assert (Hrun : LMM.learn lw = (Ok tt, LMM.on_core (Core.set_delta dL) lw2)).
    { unfold LMM.learn. rewrite (M_bind_ok _ _ _ _ _ Hopt).
      rewrite (M_bind_ok _ _ _ _ _ Hupd).
      apply LMM_assign_delta_run. }
    rewrite Hrun. repeat split; apply spec_delta_range.
  - intros e Hopt. unfold LMM.learn. apply M_bind_raise. exact Hopt.
Qed.

Lemma X4_learn_assigns_delta_witness :
  Core.delta (FastLMM._flmmc (snd (FastLMM.learn
     (H := fastlmm_optimiser_model) (H0 := core_methods_model) fastlmm_fresh)))
  = spec_delta 3 /\
  Core.delta (LMM.core (snd (LMM.learn (H := lmm_optimiser_model) lmm_fresh)))
  = spec_delta 3.
Proof.
  pose proof (X4_learn_assigns_delta
                (H := fastlmm_optimiser_model) (H0 := core_methods_model)
                (H1 := lmm_optimiser_model)
                fastlmm_fresh (fastlmm_at 3) lmm_fresh (lmm_at 3) (lmm_at 3))
    as (HF & _ & HL & _).
  split.
  - exact (proj1 (proj2 (HF eq_refl))).
  - exact (proj1 (proj2 (HL eq_refl eq_refl))).
Defined.

(** X5.  [copy()] gives a wrapper with the same value of [logistic],
    hence the same delta, but its variable is a new [Scalar]: a copy of
    a wrapper on which ['delta'] was fixed has ['delta'] free again. *)
Theorem X5_copy_keeps_value_drops_fix `{Core.Methods} (w : FastLMM.state) :
  let wf := snd (FastLMM.fix_ "delta" w) in
  FastLMM._delta (FastLMM.copy w) = FastLMM._delta w /\
  FastLMM._flmmc (FastLMM.copy w) = Core.copy (FastLMM._flmmc w) /\
  Optimix.isfixed (Optimix.logistic (FastLMM.func wf)) = true /\
  FastLMM._delta (FastLMM.copy wf) = FastLMM._delta w /\
  Optimix.isfixed (Optimix.logistic (FastLMM.func (FastLMM.copy wf))) = false.
Proof.
  intros wf. rewrite !FastLMM_delta_spec. repeat split.
Qed.

Lemma LMM_do_call_run (c : LMM.call) (w : LMM.state) :
  exists w', LMM.do_call c w = (Ok tt, w') /\
             forall k, is_Some (LMM._fix w !! k) -> is_Some (LMM._fix w' !! k).
Proof.
  destruct c as [n | n | v |]; simpl.
  - unfold LMM.fix_. destruct (String.eqb n "delta"); eexists; (split; [reflexivity |]).
    + intros k Hk. exact Hk.
    + intros k Hk. simpl. destruct (decide (n = k)) as [-> | Hne].
      * rewrite lookup_insert_eq. eexists. reflexivity.
      * rewrite lookup_insert_ne by exact Hne. exact Hk.
  - unfold LMM.unfix. destruct (String.eqb n "delta"); eexists; (split; [reflexivity |]).
    + intros k Hk. exact Hk.
    + intros k Hk. simpl. destruct (decide (n = k)) as [-> | Hne].
      * rewrite lookup_insert_eq. eexists. reflexivity.
      * rewrite lookup_insert_ne by exact Hne. exact Hk.
  - eexists. split; [reflexivity |]. intros k Hk. exact Hk.
  - rewrite LMM_assign_delta_run. eexists. split; [reflexivity |].
    intros k Hk. exact Hk.
Qed.

Lemma LMM_do_calls_run (cs : list LMM.call) (w : LMM.state) :
  exists w', LMM.do_calls cs w = (Ok tt, w') /\
             forall k, is_Some (LMM._fix w !! k) -> is_Some (LMM._fix w' !! k).
Proof.
  revert w. induction cs as [| c cs IH]; intros w.
  - exists w. split; [reflexivity | intros k Hk; exact Hk].
  - destruct (LMM_do_call_run c w) as (w1 & Hc & Hkeys1).
    destruct (IH w1) as (w2 & Hcs & Hkeys2).
    exists w2. split.
    + cbn [LMM.do_calls]. rewrite (M_bind_ok _ _ _ _ _ Hc). exact Hcs.
    + intros k Hk. apply Hkeys2, Hkeys1, Hk.
Qed.

(** X6.  On an [LMM] object, no sequence of [fix], [unfix], [scale]
    assignments and delta assignments raises, whatever the names, and
    none removes a key of the table [_fix]: after any such sequence on a
    newly built object the keys ['scale'] and ['beta'] are still there,
    so reading [scale] never ends in a [KeyError]. *)
Theorem X6_LMM_fix_table_keeps_keys (cs : list LMM.call) (c0 : Core.state) :
  let run := LMM.do_calls cs (LMM.init c0) in
  fst run = Ok tt /\
  is_Some (LMM._fix (snd run) !! "scale") /\
  is_Some (LMM._fix (snd run) !! "beta") /\
  exists s, LMM.scale (snd run) = Ok s.
Proof.
  intros run. subst run.
  destruct (LMM_do_calls_run cs (LMM.init c0)) as (w' & Hrun & Hkeys).
  rewrite Hrun. simpl fst. simpl snd.
  assert (Hs : is_Some (LMM._fix w' !! "scale")).
  { apply Hkeys. eexists. reflexivity. }
  assert (Hb : is_Some (LMM._fix w' !! "beta")).
  { apply Hkeys. eexists. reflexivity. }
  repeat apply conj; try assumption; try reflexivity.
  unfold LMM.scale. destruct Hs as [b Hb']. rewrite Hb'.
  destruct b; eexists; reflexivity.
Qed.

(** X7.  What reading [scale] on an [LMM] gives: after [fix('scale')]
    the attribute [_scale], which is the Core's scale at construction
    until the setter replaces it; after [unfix('scale')] the Core's own
    scale.  The setter only writes [_scale]: while ['scale'] is not
    fixed, assigning [scale] does not change what [scale] reads. *)
Theorem X7_LMM_scale_getter_setter (w : LMM.state) (c0 : Core.state) (v : R) :
  let wf := snd (LMM.fix_ "scale" w) in
  let wu := snd (LMM.unfix "scale" w) in
  LMM.scale wf = Ok (LMM._scale w) /\
  LMM.scale (snd (LMM.set_scale v wf)) = Ok v /\
  LMM.scale wu = Ok (Core.scale (LMM.core w)) /\
  LMM.scale (snd (LMM.set_scale v wu)) = Ok (Core.scale (LMM.core w)) /\
  LMM.scale (LMM.init c0) = Ok (Core.scale c0) /\
  LMM.scale (snd (LMM.set_scale v (LMM.init c0))) = Ok (Core.scale c0) /\
  LMM.scale (snd (LMM.fix_ "scale" (LMM.init c0))) = Ok (Core.scale c0) /\
  LMM.scale (snd (LMM.fix_ "scale" (snd (LMM.set_scale v (LMM.init c0))))) = Ok v.
Proof.
  intros wf wu. subst wf wu.
  repeat apply conj; unfold LMM.scale; simpl;
    rewrite ?lookup_insert_eq; reflexivity.
Qed.

(** X8.  On an [LMM], for every name, the last of [fix(name)] and
    [unfix(name)] wins: [unfix] after [fix] leaves the object as [unfix]
    alone does, [fix] after [unfix] as [fix] alone, and a repeated [fix]
    changes nothing more.  The same holds for ['delta'] on [FastLMM]. *)
Theorem X8_fix_unfix_last_wins
    (name : string) (lw : LMM.state) (fw : FastLMM.state) :
  snd (LMM.unfix name (snd (LMM.fix_ name lw))) = snd (LMM.unfix name lw) /\
  snd (LMM.fix_ name (snd (LMM.unfix name lw))) = snd (LMM.fix_ name lw) /\
  snd (LMM.fix_ name (snd (LMM.fix_ name lw))) = snd (LMM.fix_ name lw) /\
  snd (FastLMM.unfix "delta" (snd (FastLMM.fix_ "delta" fw)))
    = snd (FastLMM.unfix "delta" fw) /\
  snd (FastLMM.fix_ "delta" (snd (FastLMM.unfix "delta" fw)))
    = snd (FastLMM.fix_ "delta" fw) /\
  snd (FastLMM.fix_ "delta" (snd (FastLMM.fix_ "delta" fw)))
    = snd (FastLMM.fix_ "delta" fw).
Proof.
  repeat apply conj; try reflexivity;
    unfold LMM.fix_, LMM.unfix; destruct (String.eqb name "delta");
    try reflexivity; unfold modify, LMM.on_fix; simpl;
    rewrite insert_insert_eq; reflexivity.
Qed.

(** X9.  [LMM.value()] assigns delta and then calls [LMM.lml()], which
    assigns it again: the second assignment changes nothing, and
    [value()] returns what [lml()] returns and leaves the same object.
    On [FastLMM] the two methods have the same body. *)
Theorem X9_value_is_lml `{LMM.CoreMethods} `{Core.Numerics}
    (lw : LMM.state) (fw : FastLMM.state) :
  LMM.value lw = LMM.lml lw /\ FastLMM.value fw = FastLMM.lml fw.
Proof.
  split; [| reflexivity].
  unfold LMM.value, LMM.lml.
  rewrite !(M_bind_ok _ _ _ _ _ (LMM_assign_delta_run _)).
  reflexivity.
Qed.

(* ================================================================= *)
(** ** More on the variance components *)

Lemma sum_constant (x : R) (l : list R) :
  (forall y, In y l -> y = x) -> sum l = INR (length l) * x.
Proof.
  induction l as [| y l IH]; intros Hall.
  - simpl. ring.
  - change (sum (y :: l)) with (y + sum l).
    rewrite IH by (intros z Hz; apply Hall; right; exact Hz).
    rewrite (Hall y) by (left; reflexivity).
    change (length (x :: l)) with (S (length l)). rewrite S_INR. ring.
Qed.

Lemma sum_map_zero (f : R -> R) (l : list R) :
  (forall y, In y l -> f y = 0) -> sum (map f l) = 0.
Proof.
  induction l as [| y l IH]; intros Hall.
  - reflexivity.
  - change (sum (map f (y :: l))) with (f y + sum (map f l)).
    rewrite IH by (intros z Hz; apply Hall; right; exact Hz).
    rewrite (Hall y) by (left; reflexivity). ring.
Qed.

(** The variance of a non-empty array whose entries are all equal is 0. *)
Lemma var_constant (x : R) (l : list R) :
  (forall y, In y l -> y = x) -> var (x :: l) = Ok 0.
Proof.
  intros Hall.
  assert (Hall' : forall y, In y (x :: l) -> y = x).
  { intros y [<- | Hy]; [reflexivity | apply Hall; exact Hy]. }
  pose proof (INR_length_pos x l) as Hn.
  assert (Hmu : sum (x :: l) / INR (length (x :: l)) = x).
  { rewrite (sum_constant x (x :: l) Hall'). field. lra. }
  unfold var. rewrite mean_cons, bind_ok, Hmu.
  change (map ?f (x :: l)) with (f x :: map f l). rewrite mean_cons.
  f_equal.
  assert (Hz : sum (map (fun y => (y - x) * (y - x)) (x :: l)) = 0).
  { apply sum_map_zero. intros y Hy. rewrite (Hall' y Hy). ring. }
  cbn [map] in Hz. rewrite Hz. unfold Rdiv. ring.
Qed.

(** X10.  On both wrappers, whatever delta is, the genetic and the
    environmental variance add up to the scale (on [LMM], to what its
    [scale] property returns). *)
Theorem X10_components_sum_to_scale
    (fw : FastLMM.state) (lw : LMM.state) (s : R) :
  LMM.scale lw = Ok s ->
  (exists g e, FastLMM.genetic_variance fw = Ok g /\
               FastLMM.environmental_variance fw = Ok e /\
               g + e = Core.scale (FastLMM._flmmc fw)) /\
  (exists g e, LMM.genetic_variance lw = Ok g /\
               LMM.environmental_variance lw = Ok e /\
               g + e = s).
Proof.
  intros Hs. split.
  - eexists; eexists. repeat split. ring.
  - unfold LMM.genetic_variance, LMM.environmental_variance. rewrite Hs.
    eexists; eexists. repeat split. ring.
Qed.

Lemma X10_components_sum_to_scale_witness :
  exists g e, LMM.genetic_variance lmm_fresh = Ok g /\
              LMM.environmental_variance lmm_fresh = Ok e /\
              g + e = 1.
Proof.
  assert (Hs : LMM.scale lmm_fresh = Ok 1) by reflexivity.
  exact (proj2 (X10_components_sum_to_scale fastlmm_fresh lmm_fresh 1 Hs)).
Defined.

(** X11.  When the fitted mean is the same at every sample (as with an
    intercept as the only covariate) the fixed-effects variance is 0,
    and with a non-zero scale the heritability is exactly [1 - delta]. *)
Theorem X11_constant_mean_heritability
    (fw : FastLMM.state) (lw : LMM.state) (x : R) (l : list R) (s : R) :
  (forall y, In y l -> y = x) ->
  Core.m (FastLMM._flmmc fw) = x :: l ->
  Core.scale (FastLMM._flmmc fw) <> 0 ->
  Core.m (LMM.core lw) = x :: l ->
  LMM.scale lw = Ok s -> s <> 0 ->
  FastLMM.fixed_effects_variance fw = Ok 0 /\
  FastLMM.heritability fw = Ok (1 - Core.delta (FastLMM._flmmc fw)) /\
  LMM.fixed_effects_variance lw = Ok 0 /\
  LMM.heritability lw = Ok (1 - Core.delta (LMM.core lw)).
Proof.
  intros Hall HmF HsF HmL HsL Hs0.
  pose proof (var_constant x l Hall) as Hvar.
  assert (HfF : FastLMM.fixed_effects_variance fw = Ok 0).
  { unfold FastLMM.fixed_effects_variance. rewrite HmF. exact Hvar. }
  assert (HfL : LMM.fixed_effects_variance lw = Ok 0).
  { unfold LMM.fixed_effects_variance. rewrite HmL. exact Hvar. }
  repeat apply conj; try assumption.
  - unfold FastLMM.heritability. rewrite HfF, bind_ok.
    unfold FastLMM.genetic_variance, FastLMM.environmental_variance.
    rewrite !bind_ok.
    set (sF := Core.scale (FastLMM._flmmc fw)) in *.
    set (d := Core.delta (FastLMM._flmmc fw)).
    assert (Ht : 0 + sF * (1 - d) + sF * d = sF) by ring.
    rewrite Ht, (div_ok _ _ HsF). f_equal. field. exact HsF.
  - unfold LMM.heritability. rewrite HfL, bind_ok.
    unfold LMM.genetic_variance, LMM.environmental_variance.
    rewrite HsL, !bind_ok.
    set (d := Core.delta (LMM.core lw)).
    assert (Ht : 0 + s * (1 - d) + s * d = s) by ring.
    rewrite Ht, (div_ok _ _ Hs0). f_equal. field. exact Hs0.
Qed.

Lemma X11_constant_mean_heritability_witness :
  FastLMM.heritability (fastlmm_with [2; 2; 2] 3 (1 / 4)) = Ok (1 - 1 / 4) /\
  LMM.heritability (lmm_with [2; 2; 2] 3 (1 / 4)) = Ok (1 - 1 / 4).
Proof.
  assert (Hall : forall y, In y [2; 2] -> y = 2).
  { intros y [<- | [<- | []]]; reflexivity. }
  assert (Hs : (3 : R) <> 0) by lra.
  pose proof (X11_constant_mean_heritability
                (fastlmm_with [2; 2; 2] 3 (1 / 4)) (lmm_with [2; 2; 2] 3 (1 / 4))
                2 [2; 2] 3 Hall eq_refl Hs eq_refl eq_refl Hs)
    as (_ & HF & _ & HL).
  split; [exact HF | exact HL].
Defined.

(** X12.  With an empty fitted mean the variance of [m] is a division by
    zero: [fixed_effects_variance] and [heritability] have no value, on
    both wrappers and whatever scale and delta are. *)
Theorem X12_empty_mean_has_no_variance
    (fw : FastLMM.state) (lw : LMM.state) :
  Core.m (FastLMM._flmmc fw) = [] ->
  Core.m (LMM.core lw) = [] ->
  FastLMM.fixed_effects_variance fw = Raise ZeroDivisionError /\
  FastLMM.heritability fw = Raise ZeroDivisionError /\
  LMM.fixed_effects_variance lw = Raise ZeroDivisionError /\
  LMM.heritability lw = Raise ZeroDivisionError.
Proof.
  intros HmF HmL.
  assert (Hvar : var [] = Raise ZeroDivisionError).
  { unfold var. rewrite mean_nil. reflexivity. }
  assert (HfF : FastLMM.fixed_effects_variance fw = Raise ZeroDivisionError).
  { unfold FastLMM.fixed_effects_variance. rewrite HmF. exact Hvar. }
  assert (HfL : LMM.fixed_effects_variance lw = Raise ZeroDivisionError).
  { unfold LMM.fixed_effects_variance. rewrite HmL. exact Hvar. }
  repeat apply conj; try assumption.
  - unfold FastLMM.heritability. rewrite HfF. reflexivity.
  - unfold LMM.heritability. rewrite HfL. reflexivity.
Qed.

Lemma X12_empty_mean_has_no_variance_witness :
  FastLMM.heritability (fastlmm_with [] 1 (1 / 2)) = Raise ZeroDivisionError /\
  LMM.heritability (lmm_with [] 1 (1 / 2)) = Raise ZeroDivisionError.
Proof.
  pose proof (X12_empty_mean_has_no_variance
                (fastlmm_with [] 1 (1 / 2)) (lmm_with [] 1 (1 / 2))
                eq_refl eq_refl) as (_ & HF & _ & HL).
  split; [exact HF | exact HL].
Defined.

(* ================================================================= *)
(** ** The densities in closed form *)

Lemma logit_pos (p : R) : 0 < p < 1 -> 0 < p / (1 - p).
Proof. intros [H0 H1]. apply Rdiv_lt_0_compat; lra. Qed.

Lemma ln_logit (p : R) : 0 < p < 1 -> ln (p / (1 - p)) = ln p - ln (1 - p).
Proof.
  intros [H0 H1]. unfold Rdiv.
  rewrite ln_mult, ln_Rinv; try lra.
  apply Rinv_0_lt_compat. lra.
Qed.

Lemma softplus_logit (p : R) :
  0 < p < 1 -> ln (1 + exp (ln (p / (1 - p)))) = - ln (1 - p).
Proof.
  intros Hp. rewrite exp_ln by (apply logit_pos; exact Hp).
  replace (1 + p / (1 - p)) with (/ (1 - p)) by (field; lra).
  apply ln_Rinv. lra.
Qed.

Lemma exp_sum_ln (a b : R) : 0 < a -> 0 < b -> exp (ln a + ln b) = a * b.
Proof. intros Ha Hb. rewrite exp_plus, !exp_ln by assumption. reflexivity. Qed.

(** X13.  For a Bernoulli likelihood with mean [p = link.inv(x)] in
    [(0, 1)], [pdf(x)] is [p] when the outcome is 1 and [1 - p] when it
    is 0: the density of the class docstring, whose two values add up to
    one. *)
Theorem X13_bernoulli_pdf `{ExpFam.Scipy} (link : ExpFam.Link) (x : R) :
  let p := ExpFam.inv link x in
  let l1 := BernoulliLik.set_outcome (PyNum 1) (BernoulliLik.init link) in
  let l0 := BernoulliLik.set_outcome (PyNum 0) (BernoulliLik.init link) in
  0 < p < 1 ->
  ExpFam.pdf l1 x = Ok p /\
  ExpFam.pdf l0 x = Ok (1 - p) /\
  ExpFam.logpdf l1 x = Ok (ln p) /\
  ExpFam.logpdf l0 x = Ok (ln (1 - p)).
Proof.
  intros p l1 l0 Hp.
  destruct (Bernoulli_logpdf link 1 x Hp) as [Hl1 Hd1].
  destruct (Bernoulli_logpdf link 0 x Hp) as [Hl0 Hd0].
  fold p in Hl1, Hd1, Hl0, Hd0. fold l1 in Hl1, Hd1. fold l0 in Hl0, Hd0.
  set (th := ln (p / (1 - p))) in *.
  assert (Hsoft : th + ln (1 + exp (- th)) = - ln (1 - p)).
  { rewrite softplus_identity. apply softplus_logit. exact Hp. }
  assert (Hth : th = ln p - ln (1 - p)) by (apply ln_logit; exact Hp).
  assert (E1 : spec_logpdf 1 th (th + ln (1 + exp (- th))) 1 0 = ln p).
  { unfold spec_logpdf. rewrite Hsoft, Hth. field. }
  assert (E0 : spec_logpdf 0 th (th + ln (1 + exp (- th))) 1 0 = ln (1 - p)).
  { unfold spec_logpdf. rewrite Hsoft. field. }
  rewrite E1 in Hl1, Hd1. rewrite E0 in Hl0, Hd0.
  rewrite exp_ln in Hd1 by lra. rewrite exp_ln in Hd0 by lra.
  repeat split; assumption.
Qed.

Lemma X13_bernoulli_pdf_witness :
  ExpFam.pdf (H := scipy_model)
    (BernoulliLik.set_outcome (PyNum 1) (BernoulliLik.init identity_link)) (1 / 4)
  = Ok (1 / 4) /\
  ExpFam.pdf (H := scipy_model)
    (BernoulliLik.set_outcome (PyNum 0) (BernoulliLik.init identity_link)) (1 / 4)
  = Ok (1 - 1 / 4).
Proof.
  assert (Hp : 0 < ExpFam.inv identity_link (1 / 4) < 1) by (simpl; lra).
  pose proof (X13_bernoulli_pdf (H := scipy_model) identity_link (1 / 4) Hp)
    as (H1 & H0 & _).
  split; [exact H1 | exact H0].
Defined.

Section Densities.

Context `{ExpFam.Scipy}.

Hypothesis gammaln_one : ExpFam.gammaln 1 = 0.

Hypothesis gammaln_succ : forall n : nat,
  ExpFam.gammaln (INR (S n) + 1) = ln (INR (S n)) + ExpFam.gammaln (INR n + 1).

Lemma C_pos (n k : nat) : 0 < C n k.
Proof.
  unfold C. apply Rdiv_lt_0_compat; [apply INR_fact_lt_0 |].
  apply Rmult_lt_0_compat; apply INR_fact_lt_0.
Qed.

(** X14.  For a Binomial likelihood with [n > 0] trials, [k <= n]
    successes and mean [p = link.inv(x)] in [(0, 1)], [pdf(x)] is
    [C(n,k) p^k (1-p)^(n-k)], the density of the class docstring; over
    [k = 0..n] these values add up to one. *)
Theorem X14_binomial_pdf (link : ExpFam.Link) (n k : nat) (x : R) :
  let p := ExpFam.inv link x in
  let l := BinomialLik.set_nsuccesses (PyNum (INR k))
             (BinomialLik.init (INR n) link) in
  (0 < n)%nat -> (k <= n)%nat -> 0 < p < 1 ->
  ExpFam.pdf l x = Ok (C n k * p ^ k * (1 - p) ^ (n - k)) /\
  sum_f_R0 (fun i => C n i * p ^ i * (1 - p) ^ (n - i)) n = 1.
Proof using gammaln_one gammaln_succ.
  intros p l Hn Hkn Hp.
  assert (Hn0 : INR n <> 0) by (apply not_0_INR; lia).
  destruct (Binomial_logpdf link (INR n) (INR k) x Hp Hn0) as [_ Hd].
  fold p l in Hd. split.
  - rewrite Hd. f_equal.
    set (th := ln (p / (1 - p))).
    assert (Hsoft : th + ln (1 + exp (- th)) = - ln (1 - p)).
    { rewrite softplus_identity. apply softplus_logit. exact Hp. }
    assert (Hth : th = ln p - ln (1 - p)) by (apply ln_logit; exact Hp).
    assert (Hc : ExpFam.logbinom (INR n) (INR k / INR n * INR n) = ln (C n k)).
    { replace (INR k / INR n * INR n) with (INR k) by (field; exact Hn0).
      apply logbinom_C; assumption. }
    assert (Hpk : 0 < p ^ k) by (apply pow_lt; lra).
    assert (Hqk : 0 < (1 - p) ^ (n - k)) by (apply pow_lt; lra).
    pose proof (C_pos n k) as HC.
    rewrite <- (exp_ln (C n k * p ^ k * (1 - p) ^ (n - k)))
      by (apply Rmult_lt_0_compat; [apply Rmult_lt_0_compat |]; assumption).
    f_equal.
    rewrite !ln_mult, !ln_pow, minus_INR; try lra; try assumption.
    + unfold spec_logpdf. rewrite Hsoft, Hc, Hth. field. exact Hn0.
    + apply Rmult_lt_0_compat; assumption.
  - rewrite <- binomial. replace (p + (1 - p)) with 1 by ring. apply pow1.
Qed.

(** X15.  For a Poisson likelihood with count [k] and mean
    [mu = link.inv(x) > 0], [logpdf(x)] is [k log(mu) - mu + log(k!)] and
    [pdf(x)] is [k! mu^k exp(-mu)]: the factorial multiplies. *)
Theorem X15_poisson_pdf (link : ExpFam.Link) (k : nat) (x : R) :
  let mu := ExpFam.inv link x in
  let l := PoissonLik.set_noccurrences (PyNum (INR k)) (PoissonLik.init link) in
  0 < mu ->
  ExpFam.logpdf l x = Ok (INR k * ln mu - mu + ln (INR (fact k))) /\
  ExpFam.pdf l x = Ok (INR (fact k) * mu ^ k * exp (- mu)).
Proof using gammaln_one gammaln_succ.
  intros mu l Hmu.
  destruct (Poisson_logpdf link (INR k) x Hmu) as [Hl Hd].
  fold mu l in Hl, Hd.
  assert (E : spec_logpdf (INR k) (ln mu) (exp (ln mu)) 1
                (ExpFam.gammaln (INR k + 1))
              = INR k * ln mu - mu + ln (INR (fact k))).
  { unfold spec_logpdf. rewrite gammaln_fact, exp_ln by assumption. field. }
  rewrite E in Hl, Hd. split; [exact Hl |].
  rewrite Hd. f_equal.
  pose proof (INR_fact_lt_0 k) as Hf.
  assert (Hpk : 0 < mu ^ k) by (apply pow_lt; exact Hmu).
  rewrite <- (ln_pow mu Hmu k).
  replace (ln (mu ^ k) - mu + ln (INR (fact k)))
    with (ln (INR (fact k)) + ln (mu ^ k) + - mu) by ring.
  rewrite exp_plus, exp_sum_ln by assumption. reflexivity.
Qed.

End Densities.

Lemma X14_binomial_pdf_witness :
  ExpFam.pdf (H := scipy_model)
    (BinomialLik.set_nsuccesses (PyNum (INR 1))
       (BinomialLik.init (INR 4) identity_link)) (1 / 4)
  = Ok (C 4 1 * (1 / 4) ^ 1 * (1 - 1 / 4) ^ (4 - 1)).
Proof.
  assert (H04 : (0 < 4)%nat) by lia.
  assert (H14 : (1 <= 4)%nat) by lia.
  assert (Hp : 0 < ExpFam.inv identity_link (1 / 4) < 1) by (simpl; lra).
  exact (proj1 (X14_binomial_pdf (H := scipy_model) gammaln_model_one
                  gammaln_model_succ identity_link 4 1 (1 / 4) H04 H14 Hp)).
Defined.

Lemma X15_poisson_pdf_witness :
  ExpFam.pdf (H := scipy_model)
    (PoissonLik.set_noccurrences (PyNum (INR 2)) (PoissonLik.init identity_link)) 3
  = Ok (INR (fact 2) * 3 ^ 2 * exp (- 3)).
Proof.
  assert (Hmu : 0 < ExpFam.inv identity_link 3) by (simpl; lra).
  exact (proj2 (X15_poisson_pdf (H := scipy_model) gammaln_model_one
                  gammaln_model_succ identity_link 2 3 Hmu)).
Defined.

(* ================================================================= *)
(** ** Where [theta] is defined, and what it inverts *)

Lemma logit_domain (m : R) :
  (exists th, (div m (1 - m) ≫= log) = Ok th) <-> 0 < m < 1.
Proof.
  split.
  - intros [th Hth]. unfold div in Hth.
    destruct (Req_dec_T (1 - m) 0) as [Hz | Hnz]; [discriminate Hth |].
    rewrite bind_ok in Hth. unfold log in Hth.
    destruct (Rlt_dec 0 (m / (1 - m))) as [Hpos | Hneg]; [| discriminate Hth].
    assert (Hm : m = m / (1 - m) * (1 - m)) by (field; exact Hnz).
    destruct (Rlt_dec 0 (1 - m)) as [H1 | H1].
    + split; [| lra]. rewrite Hm. apply Rmult_lt_0_compat; assumption.
    + exfalso. assert (H1' : 1 - m < 0) by lra.
      assert (Hprod : m / (1 - m) * (1 - m) < 0) by nra.
      rewrite <- Hm in Hprod. lra.
  - intros Hp. eexists. apply (logit_defined _ Hp).
Qed.

Lemma log_domain (m : R) : (exists th, log m = Ok th) <-> 0 < m.
Proof.
  unfold log. destruct (Rlt_dec 0 m) as [Hpos | Hneg]; split.
  - intros _. exact Hpos.
  - intros _. eexists. reflexivity.
  - intros [th Hth]. discriminate Hth.
  - intros Hpos. contradiction.
Qed.

(** X16.  [theta(x)] has a value exactly on the domain of the link: for
    the Bernoulli and the Binomial likelihood when the mean
    [link.inv(x)] is strictly between 0 and 1, for the Poisson
    likelihood when it is positive; for the Delta likelihood always. *)
Theorem X16_theta_domain `{ExpFam.Scipy}
    (ld : DeltaLik.state) (lb : BernoulliLik.state)
    (ln_ : BinomialLik.state) (lp : PoissonLik.state) (x : R) :
  ((exists th, ExpFam.theta lb x = Ok th)
     <-> 0 < ExpFam.inv (BernoulliLik._link lb) x < 1) /\
  ((exists th, ExpFam.theta ln_ x = Ok th)
     <-> 0 < ExpFam.inv (BinomialLik._link ln_) x < 1) /\
  ((exists th, ExpFam.theta lp x = Ok th)
     <-> 0 < ExpFam.inv (PoissonLik._link lp) x) /\
  ExpFam.theta ld x = Ok 0.
Proof.
  split; [| split; [| split]].
  - apply logit_domain.
  - apply logit_domain.
  - apply log_domain.
  - reflexivity.
Qed.

(** X17.  Wherever [theta(x)] has a value it determines the mean: the
    logistic function of [theta(x)] is [mean(x)] for the Bernoulli and
    the Binomial likelihood, and the exponential of [theta(x)] is
    [mean(x)] for the Poisson likelihood. *)
Theorem X17_theta_inverts_to_mean `{ExpFam.Scipy}
    (lb : BernoulliLik.state) (ln_ : BinomialLik.state)
    (lp : PoissonLik.state) (x th : R) :
  (ExpFam.theta lb x = Ok th ->
     exists p, ExpFam.mean lb x = Ok p /\ 1 / (1 + exp (- th)) = p) /\
  (ExpFam.theta ln_ x = Ok th ->
     exists p, ExpFam.mean ln_ x = Ok p /\ 1 / (1 + exp (- th)) = p) /\
  (ExpFam.theta lp x = Ok th ->
     exists mu, ExpFam.mean lp x = Ok mu /\ exp th = mu).
Proof.
  assert (Hlogit : forall p, (div p (1 - p) ≫= log) = Ok th ->
                             1 / (1 + exp (- th)) = p).
  { intros p Hth.
    assert (Hp : 0 < p < 1) by (apply logit_domain; exists th; exact Hth).
    rewrite (logit_defined _ Hp) in Hth. injection Hth as <-.
    rewrite exp_Ropp, exp_ln by (apply logit_pos; exact Hp).
    field. lra. }
  repeat apply conj.
  - intros Hth. eexists. split; [reflexivity |]. apply Hlogit. exact Hth.
  - intros Hth. eexists. split; [reflexivity |]. apply Hlogit. exact Hth.
  - intros Hth. eexists. split; [reflexivity |].
    simpl in Hth. unfold PoissonLik.theta, PoissonLik.mean in Hth.
    rewrite bind_ok in Hth.
    assert (Hmu : 0 < ExpFam.inv (PoissonLik._link lp) x).
    { apply log_domain. exists th. exact Hth. }
    rewrite (log_ok _ Hmu) in Hth. injection Hth as <-.
    apply exp_ln. exact Hmu.
Qed.

Lemma X17_theta_inverts_to_mean_witness :
  exists p, ExpFam.mean (H := scipy_model) (BernoulliLik.init identity_link) (1 / 4) = Ok p /\
            1 / (1 + exp (- ln ((1 / 4) / (1 - 1 / 4)))) = p.
Proof.
  assert (Hp : 0 < 1 / 4 < 1) by lra.
  assert (Hth : ExpFam.theta (H := scipy_model) (BernoulliLik.init identity_link) (1 / 4)
                = Ok (ln ((1 / 4) / (1 - 1 / 4)))).
  { apply (logit_defined _ Hp). }
  exact (proj1 (X17_theta_inverts_to_mean (H := scipy_model)
                  (BernoulliLik.init identity_link)
                  (BinomialLik.init 1 identity_link)
                  (PoissonLik.init identity_link) (1 / 4) _) Hth).
Defined.

Lemma logit_defined_eta (p : R) :
  0 < p < 1 -> (div p (1 - p) ≫= fun q => log q) = Ok (ln (p / (1 - p))).
Proof. exact (logit_defined p). Qed.

(** X18.  A likelihood whose outcome was never set holds [None]:
    [logpdf(x)] and [pdf(x)] then raise [TypeError] (at every [x] of the
    link's domain), for each of the four variants. *)
Theorem X18_unset_outcome_raises `{ExpFam.Scipy}
    (dlink : option ExpFam.Link) (link : ExpFam.Link) (n x : R) :
  let p := ExpFam.inv link x in
  (ExpFam.logpdf (DeltaLik.init dlink) x = Raise TypeError /\
   ExpFam.pdf (DeltaLik.init dlink) x = Raise TypeError) /\
  (0 < p < 1 ->
   ExpFam.logpdf (BernoulliLik.init link) x = Raise TypeError /\
   ExpFam.pdf (BernoulliLik.init link) x = Raise TypeError /\
   ExpFam.logpdf (BinomialLik.init n link) x = Raise TypeError /\
   ExpFam.pdf (BinomialLik.init n link) x = Raise TypeError) /\
  (0 < p ->
   ExpFam.logpdf (PoissonLik.init link) x = Raise TypeError /\
   ExpFam.pdf (PoissonLik.init link) x = Raise TypeError).
Proof.
  intros p. repeat apply conj; try reflexivity.
  - intros Hp. unfold p in Hp.
    assert (Hb : ExpFam.logpdf (BernoulliLik.init link) x = Raise TypeError).
    { unfold ExpFam.logpdf. simpl.
      unfold BernoulliLik.theta, BernoulliLik.mean. simpl.
      rewrite (logit_defined_eta _ Hp). reflexivity. }
    assert (Hn : ExpFam.logpdf (BinomialLik.init n link) x = Raise TypeError).
    { unfold ExpFam.logpdf. simpl.
      unfold BinomialLik.theta, BinomialLik.mean. simpl.
      rewrite (logit_defined_eta _ Hp). reflexivity. }
    unfold ExpFam.pdf. rewrite Hb, Hn. repeat split; reflexivity.
  - intros Hp. unfold p in Hp.
    assert (Hl : ExpFam.logpdf (PoissonLik.init link) x = Raise TypeError).
    { unfold ExpFam.logpdf. simpl.
      unfold PoissonLik.theta, PoissonLik.mean. simpl.
      rewrite (log_ok _ Hp). reflexivity. }
    unfold ExpFam.pdf. rewrite Hl. split; reflexivity.
Qed.

Lemma X18_unset_outcome_raises_witness :
  ExpFam.logpdf (H := scipy_model) (BernoulliLik.init identity_link) (1 / 4)
    = Raise TypeError /\
  ExpFam.logpdf (H := scipy_model) (PoissonLik.init identity_link) (1 / 4)
    = Raise TypeError.
Proof.
  assert (Hp : 0 < ExpFam.inv identity_link (1 / 4) < 1) by (simpl; lra).
  assert (Hmu : 0 < ExpFam.inv identity_link (1 / 4)) by (simpl; lra).
  pose proof (X18_unset_outcome_raises (H := scipy_model) None identity_link 2 (1 / 4))
    as (_ & Hb & Hpo).
  split; [exact (proj1 (Hb Hp)) | exact (proj1 (Hpo Hmu))].
Defined.

Lemma X16_theta_domain_witness :
  exists th, ExpFam.theta (H := scipy_model) (BernoulliLik.init identity_link) (1 / 4)
             = Ok th.
Proof.
  assert (Hp : 0 < ExpFam.inv identity_link (1 / 4) < 1) by (simpl; lra).
  exact (proj2 (proj1 (X16_theta_domain (H := scipy_model)
                         (DeltaLik.init None) (BernoulliLik.init identity_link)
                         (BinomialLik.init 1 identity_link)
                         (PoissonLik.init identity_link) (1 / 4))) Hp).
Defined.

(* ================================================================= *)
(** ** More on the sampler *)

Lemma sample_run `{GP.Numpy}
    (g : GP.state) (random_state : option GP.RandomState) (h : GP.store)
    (vm : GP.ndarray) (A : list (list R)) :
  h !! GP.data (GP._mean g) = Some vm ->
  h !! GP.data (GP._cov g) = Some (GP.Mat A) ->
  let A' := GP.Mat (GP.add_diag_from 0 GP.epsilon_small A) in
  let rs := match random_state with
            | None => GP.new_RandomState
            | Some r => r
            end in
  GP.sample g random_state h =
  (match fst (GP.multivariate_normal vm A' rs) with
   | Ok v => Ok (v, snd (GP.multivariate_normal vm A' rs))
   | Raise e => Raise e
   end, <[fresh (dom h) := A']> h).
Proof.
  intros Hm Hc A' rs.
  set (K := fresh (dom h)).
  assert (HmK : <[K := A']> h !! GP.data (GP._mean g) = Some vm).
  { rewrite lookup_insert_ne; [exact Hm |].
    intros Heq. apply (fresh_not_allocated h _ vm Hm). symmetry. exact Heq. }
  unfold GP.sample. fold rs.
  rewrite (M_bind_ok _ _ h h (GP.data (GP._mean g)) eq_refl).
  rewrite (M_bind_ok _ _ h h (GP.data (GP._cov g)) eq_refl).
  rewrite (M_bind_ok _ _ _ _ _ (copy_spec h _ _ Hc)). fold K.
  rewrite (M_bind_ok _ _ _ (<[K := A']> h) tt).
  2:{ rewrite (sum2diag_in_place _ K GP.epsilon_small A)
        by apply lookup_insert_eq.
      rewrite insert_insert_eq. reflexivity. }
  rewrite (M_bind_ok _ _ _ _ _ (deref_ok _ _ _ HmK)).
  rewrite (M_bind_ok _ _ _ _ _ (deref_ok _ K A' (lookup_insert_eq _ _ _))).
  destruct (GP.multivariate_normal vm A' rs) as [[v | e] rs']; reflexivity.
Qed.

Lemma insert_fresh_keeps (h : GP.store) (arr' : GP.ndarray)
    (p : GP.addr) (arr : GP.ndarray) :
  h !! p = Some arr -> <[fresh (dom h) := arr']> h !! p = Some arr.
Proof.
  intros Hp. rewrite lookup_insert_ne; [exact Hp |].
  intros Heq. apply (fresh_not_allocated h p arr Hp). symmetry. exact Heq.
Qed.

Lemma add_diag_from_length (s : nat) (D : R) (rows : list (list R)) :
  length (GP.add_diag_from s D rows) = length rows.
Proof.
  revert s. induction rows as [| r rows IH]; intros s; simpl.
  - reflexivity.
  - rewrite IH. reflexivity.
Qed.

Lemma add_diag_from_lookup (s : nat) (D : R) (rows : list (list R)) (i : nat) :
  GP.add_diag_from s D rows !! i
  = alter (fun x => x + D) (s + i)%nat <$> rows !! i.
Proof.
  revert s i. induction rows as [| r rows IH]; intros s i.
  - reflexivity.
  - destruct i as [| i]; simpl.
    + rewrite Nat.add_0_r. reflexivity.
    + rewrite IH. replace (S s + i)%nat with (s + S i)%nat by lia. reflexivity.
Qed.

Lemma add_diag_entry (D : R) (rows : list (list R)) (i j : nat) :
  GP.entry (GP.add_diag_from 0 D rows) i j
  = (fun a => if decide (i = j) then a + D else a) <$> GP.entry rows i j.
Proof.
  unfold GP.entry. rewrite add_diag_from_lookup. simpl.
  destruct (rows !! i) as [r |]; simpl; [| reflexivity].
  destruct (decide (i = j)) as [-> | Hne].
  - rewrite list_lookup_alter_eq. reflexivity.
  - rewrite list_lookup_alter_ne by exact Hne.
    destruct (r !! j); reflexivity.
Qed.

Lemma add_diag_row_length (D : R) (rows : list (list R)) (i : nat) :
  length <$> (GP.add_diag_from 0 D rows !! i) = length <$> (rows !! i).
Proof.
  rewrite add_diag_from_lookup. destruct (rows !! i) as [r |]; simpl; [| reflexivity].
  rewrite length_alter. reflexivity.
Qed.

(** X20.  The matrix [sample] draws from has the shape of the covariance
    matrix [K] and its entries: [K[i][j] + epsilon.small] on the
    diagonal, [K[i][j]] off it. *)
Theorem X20_sample_draws_from_regularised `{GP.Numpy}
    (g : GP.state) (random_state : option GP.RandomState) (h : GP.store)
    (vm : GP.ndarray) (A : list (list R)) :
  h !! GP.data (GP._mean g) = Some vm ->
  h !! GP.data (GP._cov g) = Some (GP.Mat A) ->
  let rs := match random_state with
            | None => GP.new_RandomState
            | Some r => r
            end in
  exists B : list (list R),
    fst (GP.sample g random_state h) =
      match fst (GP.multivariate_normal vm (GP.Mat B) rs) with
      | Ok v => Ok (v, snd (GP.multivariate_normal vm (GP.Mat B) rs))
      | Raise e => Raise e
      end /\
    length B = length A /\
    (forall i, length <$> (B !! i) = length <$> (A !! i)) /\
    (forall i j, GP.entry B i j =
       (fun a => if decide (i = j) then a + GP.epsilon_small else a)
         <$> GP.entry A i j).
Proof.
  intros Hm Hc rs.
  exists (GP.add_diag_from 0 GP.epsilon_small A).
  rewrite (sample_run g random_state h vm A Hm Hc). simpl fst.
  repeat apply conj.
  - reflexivity.
  - apply add_diag_from_length.
  - intros i. apply add_diag_row_length.
  - intros i j. apply add_diag_entry.
Qed.

Lemma X20_sample_draws_from_regularised_witness :
  exists B : list (list R),
    fst (GP.sample (H := numpy_model) sampler_example None store_example)
      = Ok (GP.Vec [0; 0], 1%nat) /\
    GP.entry B 0 0 = Some (1 + 1e-8) /\
    GP.entry B 0 1 = Some 0.
Proof.
  destruct (X20_sample_draws_from_regularised (H := numpy_model)
              sampler_example None store_example (GP.Vec [0; 0])
              [[1; 0]; [0; 1]] eq_refl eq_refl) as (B & Hr & _ & _ & He).
  exists B. repeat apply conj.
  - exact Hr.
  - rewrite He. reflexivity.
  - rewrite He. reflexivity.
Defined.

(** X21.  However many times [sample] was called before, on whatever
    random sources, the arrays of the mean and of the covariance object
    are what they were at the start, every array the store had is kept,
    and the next call draws from the same mean and the same regularised
    matrix: the epsilon never accumulates. *)
Theorem X21_repeated_samples `{GP.Numpy}
    (g : GP.state) (sources : list (option GP.RandomState))
    (random_state : option GP.RandomState) (h : GP.store)
    (vm : GP.ndarray) (A : list (list R)) :
  h !! GP.data (GP._mean g) = Some vm ->
  h !! GP.data (GP._cov g) = Some (GP.Mat A) ->
  let h' := GP.sample_many g sources h in
  let A' := GP.Mat (GP.add_diag_from 0 GP.epsilon_small A) in
  let rs := match random_state with
            | None => GP.new_RandomState
            | Some r => r
            end in
  h' !! GP.data (GP._mean g) = Some vm /\
  h' !! GP.data (GP._cov g) = Some (GP.Mat A) /\
  (forall p arr, h !! p = Some arr -> h' !! p = Some arr) /\
  fst (GP.sample g random_state h') =
    match fst (GP.multivariate_normal vm A' rs) with
    | Ok v => Ok (v, snd (GP.multivariate_normal vm A' rs))
    | Raise e => Raise e
    end.
Proof.
  intros Hm Hc h' A' rs. subst h'.
  assert (Hinv : forall srcs h0,
            h0 !! GP.data (GP._mean g) = Some vm ->
            h0 !! GP.data (GP._cov g) = Some (GP.Mat A) ->
            GP.sample_many g srcs h0 !! GP.data (GP._mean g) = Some vm /\
            GP.sample_many g srcs h0 !! GP.data (GP._cov g) = Some (GP.Mat A) /\
            (forall p arr, h0 !! p = Some arr ->
                           GP.sample_many g srcs h0 !! p = Some arr)).
  { induction srcs as [| s srcs IH]; intros h0 Hm0 Hc0.
    - repeat split; try assumption. intros p arr Hp. exact Hp.
    - cbn [GP.sample_many].
      rewrite (sample_run g s h0 vm A Hm0 Hc0). simpl snd.
      destruct (IH _ (insert_fresh_keeps h0 A' _ _ Hm0)
                     (insert_fresh_keeps h0 A' _ _ Hc0)) as (Hm1 & Hc1 & Hk1).
      repeat split; try assumption.
      intros p arr Hp. apply Hk1. apply insert_fresh_keeps. exact Hp. }
  destruct (Hinv sources h Hm Hc) as (Hm' & Hc' & Hk').
  repeat split; try assumption.
  rewrite (sample_run g random_state _ vm A Hm' Hc'). reflexivity.
Qed.

Lemma X21_repeated_samples_witness :
  GP.sample_many (H := numpy_model) sampler_example [None; Some 5%nat; None]
    store_example !! 2%positive
  = Some (GP.Mat [[1; 0]; [0; 1]]).
Proof.
  exact (proj1 (proj2 (X21_repeated_samples (H := numpy_model) sampler_example
                         [None; Some 5%nat; None] None store_example
                         (GP.Vec [0; 0]) [[1; 0]; [0; 1]] eq_refl eq_refl))).
Defined.
